(** * ha_shortcuts: a shallow embedding of [ha_shortcuts.py]

    The script reads a configuration (a server and a list of shortcuts),
    lists the shortcuts, fires one of them as an HTTP call, registers
    global hotkeys, or manages a background listener through a pid file.

    The embedding keeps the script's dynamic typing: configuration data
    are Python objects ([value]), every access can raise, and the effects
    (printing, HTTP calls, signals, files, hotkey registration) are
    recorded in an explicit world that is threaded through the code.
    Everything the script takes from outside (interpreter built-ins whose
    text is not modelled, the libraries, the operating system) is a field
    of the record [Env].

    Strings are ASCII strings: [lower], [upper] and [strip] act on the
    ASCII range only. *)

From Stdlib Require Import String Ascii List ZArith Bool Lia.
From Stdlib Require Import DecimalString DecimalPos DecimalZ.
Import ListNotations.

Set Warnings "-register-all".

Local Open Scope Z_scope.
Local Open Scope list_scope.
Local Open Scope string_scope.

(** ** Python strings *)

Module PyStr.

Definition code (c : ascii) : N := N_of_ascii c.

Definition is_upper (c : ascii) : bool :=
  (65 <=? code c)%N && (code c <=? 90)%N.

Definition is_lower (c : ascii) : bool :=
  (97 <=? code c)%N && (code c <=? 122)%N.

Definition lower_char (c : ascii) : ascii :=
  if is_upper c then ascii_of_N (code c + 32) else c.

Definition upper_char (c : ascii) : ascii :=
  if is_lower c then ascii_of_N (code c - 32) else c.

Fixpoint map (f : ascii -> ascii) (s : string) : string :=
  match s with
  | EmptyString => EmptyString
  | String c r => String (f c) (map f r)
  end.

(** [str.lower] and [str.upper]. *)
Definition lower (s : string) : string := map lower_char s.
Definition upper (s : string) : string := map upper_char s.

(** The characters [str.strip] removes: tab, line feed, vertical tab, form
    feed, carriage return, the four separators 28..31 and the space. *)
Definition is_space (c : ascii) : bool :=
  let n := code c in
  ((9 <=? n)%N && (n <=? 13)%N) || ((28 <=? n)%N && (n <=? 32)%N).

Definition mem (c : ascii) (chars : string) : bool :=
  existsb (Ascii.eqb c) (list_ascii_of_string chars).

Fixpoint lstrip_by (p : ascii -> bool) (s : string) : string :=
  match s with
  | EmptyString => EmptyString
  | String c r => if p c then lstrip_by p r else s
  end.

Fixpoint rstrip_by (p : ascii -> bool) (s : string) : string :=
  match s with
  | EmptyString => EmptyString
  | String c r =>
      match rstrip_by p r with
      | EmptyString => if p c then EmptyString else String c EmptyString
      | r' => String c r'
      end
  end.

(** [s.rstrip(chars)]: every trailing character that occurs in [chars] goes. *)
Definition rstrip (chars : string) (s : string) : string :=
  rstrip_by (fun c => mem c chars) s.

(** [s.strip()]. *)
Definition strip (s : string) : string :=
  rstrip_by is_space (lstrip_by is_space s).

(** [s.split(sep)] for a separator of one character: never empty, and a
    string without the separator gives the one-element list. *)
Fixpoint split (sep : ascii) (s : string) : list string :=
  match s with
  | EmptyString => [EmptyString]
  | String c r =>
      if Ascii.eqb c sep then EmptyString :: split sep r
      else match split sep r with
           | h :: t => String c h :: t
           | [] => [String c EmptyString]
           end
  end.

(** [sep.join(l)]. *)
Fixpoint join (sep : string) (l : list string) : string :=
  match l with
  | [] => ""
  | [x] => x
  | x :: rest => x ++ sep ++ join sep rest
  end.

(** [k in s] on strings: [k] occurs in [s] as a substring. *)
Fixpoint contains (k s : string) : bool :=
  String.prefix k s ||
  match s with
  | EmptyString => false
  | String _ r => contains k r
  end.

Definition is_empty (s : string) : bool :=
  match s with EmptyString => true | _ => false end.

Definition is_digit (c : ascii) : bool :=
  (48 <=? code c)%N && (code c <=? 57)%N.

Definition digit_val (c : ascii) : Z := Z.of_N (code c) - 48.

(** The digits of a decimal literal as [int] reads them: digits, with
    single underscores allowed between two digits. [after_digit] tells
    whether the previous character was a digit. *)
Fixpoint digits (acc : Z) (after_digit : bool) (s : string) : option Z :=
  match s with
  | EmptyString => if after_digit then Some acc else None
  | String c r =>
      if is_digit c then digits (10 * acc + digit_val c) true r
      else if Ascii.eqb c "_" && after_digit then
        match r with
        | String d _ => if is_digit d then digits acc false r else None
        | EmptyString => None
        end
      else None
  end.

(** [int(s)] in base ten; [None] stands for [ValueError]. *)
Definition to_int (s : string) : option Z :=
  match strip s with
  | String "-" r => option_map Z.opp (digits 0 false r)
  | String "+" r => digits 0 false r
  | t => digits 0 false t
  end.

(** [str(n)] for an integer. *)
Definition of_int (z : Z) : string := NilZero.string_of_int (Z.to_int z).

End PyStr.

(** ** Python objects and exceptions *)

(** What a YAML or JSON document loads to. Mappings keep their insertion
    order; keys are strings and a key is looked up at its first occurrence.
    Floating-point numbers are left out, and no object is shared between
    two places of a document (no YAML aliases). *)
Inductive value : Type :=
| VNone
| VBool (b : bool)
| VInt (z : Z)
| VStr (s : string)
| VList (l : list value)
| VDict (d : list (string * value)).

Inductive exn : Type :=
| ConfigError (msg : string)
| KeyError (key : string)
| TypeError
| AttributeError
| ValueError
| YAMLError
| JSONDecodeError
| OSError
| ProcessLookupError
| PermissionError
| RequestException (msg : string)
| KeyboardInterrupt.

(** [except Exception] catches everything here but [KeyboardInterrupt]. *)
Definition is_Exception (e : exn) : bool :=
  match e with KeyboardInterrupt => false | _ => true end.

(** [except OSError]: the class and its two subclasses. *)
Definition is_OSError (e : exn) : bool :=
  match e with
  | OSError | ProcessLookupError | PermissionError => true
  | _ => false
  end.

Inductive outcome (A : Type) : Type :=
| Val (a : A)
| Exc (e : exn).
Arguments Val {A} a.
Arguments Exc {A} e.

Definition obind {A B} (o : outcome A) (f : A -> outcome B) : outcome B :=
  match o with
  | Val a => f a
  | Exc e => Exc e
  end.

Declare Scope py_scope.
Delimit Scope py_scope with py.
Notation "'let!' x ':=' o 'in' k" := (obind o (fun x => k))
  (at level 10, x name, o at level 100, k at level 200) : py_scope.
Local Open Scope py_scope.

Module Py.

(** Truth value of an object, as [if x], [not x] and [x or y] take it. *)
Definition truthy (v : value) : bool :=
  match v with
  | VNone => false
  | VBool b => b
  | VInt z => negb (z =? 0)%Z
  | VStr s => negb (PyStr.is_empty s)
  | VList l => match l with [] => false | _ => true end
  | VDict d => match d with [] => false | _ => true end
  end.

(** [a or b]. *)
Definition or_ (a b : value) : value := if truthy a then a else b.

Fixpoint lookup (k : string) (d : list (string * value)) : option value :=
  match d with
  | [] => None
  | (k', v) :: rest => if String.eqb k k' then Some v else lookup k rest
  end.

Definition has_key (k : string) (d : list (string * value)) : bool :=
  match lookup k d with Some _ => true | None => false end.

(** [x == k] for a string [k]. *)
Definition eq_str (x : value) (k : string) : bool :=
  match x with
  | VStr s => String.eqb s k
  | _ => false
  end.

(** [k in v]: key of a mapping, element of a list, substring of a string. *)
Definition contains (k : string) (v : value) : outcome bool :=
  match v with
  | VDict d => Val (has_key k d)
  | VList l => Val (existsb (fun x => eq_str x k) l)
  | VStr s => Val (PyStr.contains k s)
  | _ => Exc TypeError
  end.

(** [v[k]] for a string [k]. *)
Definition getitem (v : value) (k : string) : outcome value :=
  match v with
  | VDict d =>
      match lookup k d with
      | Some x => Val x
      | None => Exc (KeyError k)
      end
  | _ => Exc TypeError
  end.

(** [v.get(k, default)]; only mappings have the method. *)
Definition get (v : value) (k : string) (default : value) : outcome value :=
  match v with
  | VDict d =>
      match lookup k d with
      | Some x => Val x
      | None => Val default
      end
  | _ => Exc AttributeError
  end.

(** [v.setdefault(k, default)]: the object after the call. *)
Definition setdefault (v : value) (k : string) (default : value)
  : outcome value :=
  match v with
  | VDict d => Val (VDict (if has_key k d then d else d ++ [(k, default)]))
  | _ => Exc AttributeError
  end.

(** Replace the value stored under an existing key. *)
Fixpoint store (k : string) (x : value) (d : list (string * value))
  : list (string * value) :=
  match d with
  | [] => []
  | (k', v) :: rest =>
      if String.eqb k k' then (k', x) :: rest else (k', v) :: store k x rest
  end.

End Py.

(** ** The outside world *)

(** [pathlib.Path]: the script prints a path and reads its suffix. *)
Record Path : Type := {
  path_text : string;
  path_suffix : string
}.

(** The two sibling files of the script. *)
Inductive file : Type := PID_FILE | LOG_FILE.

(** The arguments of [requests.request(method, url, headers=, json=,
    timeout=)]; [req_json = VNone] is a request without a body. *)
Record HttpRequest : Type := {
  req_method : string;
  req_url : string;
  req_headers : list (string * string);
  req_json : value;
  req_timeout : Z
}.

(** The attributes of the response the script reads. *)
Record Response : Type := {
  ok : bool;
  status_code : Z;
  text : string
}.

(** [requests.Response.ok], from the requests library: true unless
    [raise_for_status] would raise, which it does for the client and
    server error codes 400..599. *)
Definition requests_ok (status : Z) : bool :=
  negb ((400 <=? status)%Z && (status <? 600)%Z).

Definition SIGTERM : Z := 15.

(** Calls that leave the process, in the order they are made. *)
Inductive event : Type :=
| EPrint (line : string)
| ERequest (r : HttpRequest)
| EKill (pid sig : Z)
| EUnlink (f : file)
| EOpenAppend (f : file)
| EWrite (f : file) (content : string)
| EPopen (cmd : list string)
| EAddHotkey (hotkey action : value)
| EWait
| EHotKey (combo : string) (action : value)
| EListen.

Record World : Type := {
  trace : list event;
  pid_file : option string;
  log_file : bool
}.

(** What the script is given.
    - [py_repr], [exc_text]: the interpreter's text for a container and
      for an exception other than [ConfigError];
    - [requests_request], [elapsed_ms]: the HTTP transport, which answers
      or raises an exception of the requests library with its text
      (timeout, name resolution, refused connection), and the time a call
      took on the wall clock, in whole milliseconds;
    - [os_kill], [Popen], [sys_executable], [script_path], [log_path]:
      process management ([None] from [os_kill] is a delivered signal);
    - [read_text] ([None] for a file that does not exist),
      [yaml_safe_load], [json_loads]: the configuration file and its
      parsers;
    - [keyboard], [pynput_keyboard]: whether the import of the hotkey
      library succeeded, with the library calls the script makes. *)
Record Env : Type := {
  py_repr : value -> string;
  exc_text : exn -> string;
  requests_request : HttpRequest -> Response + string;
  elapsed_ms : HttpRequest -> Z;
  os_kill : Z -> Z -> option exn;
  Popen : list string -> outcome Z;
  sys_executable : string;
  script_path : string;
  log_path : string;
  read_text : Path -> option string;
  yaml_safe_load : string -> outcome value;
  json_loads : string -> outcome value;
  keyboard : bool;
  keyboard_add_hotkey : value -> option exn;
  keyboard_wait : option exn;
  pynput_keyboard : bool;
  HotKey_parse : string -> option exn;
  Listener_join : option exn
}.

(** ** State and exceptions *)

Definition M (A : Type) : Type := World -> outcome A * World.

Definition ret {A} (a : A) : M A := fun w => (Val a, w).

Definition raise {A} (e : exn) : M A := fun w => (Exc e, w).

Definition bind {A B} (c : M A) (f : A -> M B) : M B :=
  fun w =>
    match c w with
    | (Val a, w') => f a w'
    | (Exc e, w') => (Exc e, w')
    end.

Definition lift {A} (o : outcome A) : M A := fun w => (o, w).

Notation "x <- c ;; k" := (bind c (fun x => k))
  (at level 61, c at next level, right associativity) : py_scope.
Notation "c ;; k" := (bind c (fun _ => k))
  (at level 61, right associativity) : py_scope.

(** [try: body except <catches> as e: handler e]. The handler runs in the
    world the body left behind. *)
Definition try_except {A} (body : M A) (catches : exn -> bool)
    (handler : exn -> M A) : M A :=
  fun w =>
    match body w with
    | (Val a, w') => (Val a, w')
    | (Exc e, w') => if catches e then handler e w' else (Exc e, w')
    end.

(** [try: body finally: cleanup]. The cleanup runs whatever the body did,
    also when the body returned or raised; its own exception wins. *)
Definition try_finally {A} (body : M A) (cleanup : M unit) : M A :=
  fun w =>
    match body w with
    | (r, w') =>
        match cleanup w' with
        | (Val _, w'') => (r, w'')
        | (Exc e, w'') => (Exc e, w'')
        end
    end.

Definition emit (e : event) : M unit :=
  fun w => (Val tt, {| trace := trace w ++ [e];
                       pid_file := pid_file w;
                       log_file := log_file w |}).

Definition print (line : string) : M unit := emit (EPrint line).

(** The lines printed and the HTTP calls issued along a trace. *)
Fixpoint printed (t : list event) : list string :=
  match t with
  | [] => []
  | EPrint s :: r => s :: printed r
  | _ :: r => printed r
  end.

Fixpoint http_calls (t : list event) : list HttpRequest :=
  match t with
  | [] => []
  | ERequest q :: r => q :: http_calls r
  | _ :: r => http_calls r
  end.

(** Files. Operations on the two sibling files are taken to succeed. *)
Definition exists_ (f : file) : M bool :=
  fun w => (Val match f with
                | PID_FILE => match pid_file w with Some _ => true | None => false end
                | LOG_FILE => log_file w
                end, w).

(** [PID_FILE.read_text()]; a missing file is [FileNotFoundError], an
    [OSError]. *)
Definition read_pid_file : M string :=
  fun w =>
    match pid_file w with
    | Some t => (Val t, w)
    | None => (Exc OSError, w)
    end.

(** [f.unlink(missing_ok=True)]. *)
Definition unlink (f : file) : M unit :=
  fun w => (Val tt,
            {| trace := trace w ++ [EUnlink f];
               pid_file := match f with PID_FILE => None | LOG_FILE => pid_file w end;
               log_file := match f with PID_FILE => log_file w | LOG_FILE => false end |}).

(** [LOG_FILE.open("a")] creates the file when it is missing. *)
Definition open_append (f : file) : M unit :=
  fun w => (Val tt,
            {| trace := trace w ++ [EOpenAppend f];
               pid_file := match f with
                           | PID_FILE => Some match pid_file w with Some t => t | None => "" end
                           | LOG_FILE => pid_file w
                           end;
               log_file := match f with PID_FILE => log_file w | LOG_FILE => true end |}).

Definition write_pid_file (content : string) : M unit :=
  fun w => (Val tt,
            {| trace := trace w ++ [EWrite PID_FILE content];
               pid_file := Some content;
               log_file := log_file w |}).

(** [int(s)] raising [ValueError]. *)
Definition int (s : string) : outcome Z :=
  match PyStr.to_int s with
  | Some z => Val z
  | None => Exc ValueError
  end.

(** ** The script *)

Section Script.

Variable env : Env.

(** [str(v)], as an f-string formats [v]. *)
Definition py_str (v : value) : string :=
  match v with
  | VStr s => s
  | VInt z => PyStr.of_int z
  | VNone => "None"
  | VBool true => "True"
  | VBool false => "False"
  | _ => py_repr env v
  end.

(** [str(exc)]. *)
Definition exc_str (e : exn) : string :=
  match e with
  | ConfigError msg => msg
  | RequestException msg => msg
  | _ => exc_text env e
  end.

Definition is_yaml_suffix (s : string) : bool :=
  String.eqb s ".yaml" || String.eqb s ".yml".

Definition is_parse_error (e : exn) : bool :=
  match e with YAMLError | JSONDecodeError => true | _ => false end.

Definition load_config (path : Path) : outcome value :=
  match read_text env path with
  | None => Exc (ConfigError ("Config file not found: " ++ path_text path))
  | Some content =>
      let parsed :=
        if is_yaml_suffix (PyStr.lower (path_suffix path))
        then yaml_safe_load env content
        else json_loads env content in
      match parsed with
      | Val cfg => Val cfg
      | Exc e =>
          if is_parse_error e
          then Exc (ConfigError ("Config parse error: " ++ exc_str e))
          else Exc e
      end
  end.

(** The inner loop of [validate_config]: the first of the three fields
    that is not [in action] raises. *)
Fixpoint check_fields (fields : list string) (action : value) : outcome unit :=
  match fields with
  | [] => Val tt
  | field :: rest =>
      let! present := Py.contains field action in
      if present then check_fields rest action
      else Exc (ConfigError
                  ("Shortcut missing '" ++ field ++ "': " ++ py_str action))
  end.

(** The outer loop of [validate_config]. The entries are updated in place,
    so the list is returned as the loop leaves it, also when it raises. *)
Fixpoint validate_shortcuts (l : list value) : outcome unit * list value :=
  match l with
  | [] => (Val tt, [])
  | action :: rest =>
      match check_fields ["name"; "method"; "endpoint"] action with
      | Exc e => (Exc e, action :: rest)
      | Val _ =>
          match Py.setdefault action "body" (VDict []) with
          | Exc e => (Exc e, action :: rest)
          | Val a1 =>
              match Py.setdefault a1 "hotkey" VNone with
              | Exc e => (Exc e, a1 :: rest)
              | Val a2 =>
                  let (r, rest') := validate_shortcuts rest in
                  (r, a2 :: rest')
              end
          end
      end
  end.

(** [validate_config(cfg)]: the outcome, and the object [cfg] as the call
    leaves it. *)
Definition validate_config (cfg : value) : outcome unit * value :=
  let pre :=
    let! has_server := Py.contains "server" cfg in
    let! has_shortcuts :=
      (if has_server then Py.contains "shortcuts" cfg else Val false) in
    if negb (has_server && has_shortcuts)
    then Exc (ConfigError "Config must contain 'server' and 'shortcuts'")
    else
      let! server := Py.getitem cfg "server" in
      let! has_base_url := Py.contains "base_url" server in
      let! has_token :=
        (if has_base_url then Py.contains "token" server else Val false) in
      if negb (has_base_url && has_token)
      then Exc (ConfigError "Server config must include 'base_url' and 'token'")
      else
        let! shortcuts := Py.getitem cfg "shortcuts" in
        match shortcuts with
        | VList l => Val l
        | _ => Exc (ConfigError "'shortcuts' must be a list")
        end in
  match pre with
  | Exc e => (Exc e, cfg)
  | Val l =>
      let (r, l') := validate_shortcuts l in
      (r, match cfg with
          | VDict d => VDict (Py.store "shortcuts" (VList l') d)
          | _ => cfg
          end)
  end.

Definition format_action (action : value) : outcome string :=
  let! h := Py.get action "hotkey" VNone in
  let hotkey := Py.or_ h (VStr "(no hotkey)") in
  let! name := Py.getitem action "name" in
  let! method := Py.getitem action "method" in
  let! endpoint := Py.getitem action "endpoint" in
  Val (py_str name ++ " -> " ++ py_str method ++ " " ++ py_str endpoint
         ++ " " ++ py_str hotkey).

(** [s.rstrip("/")], [s.upper()] and [a + b] on objects. *)
Definition rstrip_slash (v : value) : outcome string :=
  match v with
  | VStr s => Val (PyStr.rstrip "/" s)
  | _ => Exc AttributeError
  end.

Definition upper (v : value) : outcome string :=
  match v with
  | VStr s => Val (PyStr.upper s)
  | _ => Exc AttributeError
  end.

Definition str_add (a : string) (b : value) : outcome string :=
  match b with
  | VStr s => Val (a ++ s)
  | _ => Exc TypeError
  end.

(** The dictionary [send_request] returns. *)
Record ExecutionResult : Type := {
  res_ok : bool;
  res_status : Z;
  res_elapsed_ms : Z;
  res_text : string
}.

(** The request [send_request] hands to [requests.request]. *)
Definition build_request (server action : value) : outcome HttpRequest :=
  let! base_url := Py.getitem server "base_url" in
  let! stripped := rstrip_slash base_url in
  let! endpoint := Py.getitem action "endpoint" in
  let! url := str_add stripped endpoint in
  let! m := Py.getitem action "method" in
  let! method := upper m in
  let! b := Py.get action "body" (VDict []) in
  let body := Py.or_ b VNone in
  let! token := Py.getitem server "token" in
  Val {| req_method := method;
         req_url := url;
         req_headers := [("Authorization", "Bearer " ++ py_str token);
                         ("Content-Type", "application/json")];
         req_json := body;
         req_timeout := 15 |}.

Definition request (q : HttpRequest) : M Response :=
  emit (ERequest q) ;;
  match requests_request env q with
  | inl response => ret response
  | inr msg => raise (RequestException msg)
  end.

Definition send_request (server action : value) : M ExecutionResult :=
  q <- lift (build_request server action) ;;
  response <- request q ;;
  ret {| res_ok := ok response;
         res_status := status_code response;
         res_elapsed_ms := elapsed_ms env q;
         res_text := text response |}.

Definition trigger_action (server action : value) (source : string) : M unit :=
  label <- lift (Py.getitem action "name") ;;
  method <- lift (Py.getitem action "method") ;;
  endpoint <- lift (Py.getitem action "endpoint") ;;
  print ("[" ++ source ++ "] Triggering '" ++ py_str label ++ "' -> "
           ++ py_str method ++ " " ++ py_str endpoint) ;;
  try_except
    (result <- send_request server action ;;
     let status := if res_ok result then "ok" else "fail" in
     print ("[" ++ source ++ "] " ++ py_str label ++ ": " ++ status ++ " ("
              ++ PyStr.of_int (res_status result) ++ ", "
              ++ PyStr.of_int (res_elapsed_ms result) ++ "ms)") ;;
     if negb (PyStr.is_empty (res_text result))
     then print ("[" ++ source ++ "] Response: " ++ res_text result)
     else ret tt)
    is_Exception
    (fun exc =>
       print ("[" ++ source ++ "] " ++ py_str label ++ ": error " ++ exc_str exc)).

(** *** Hotkeys *)

Definition modifiers : list string :=
  ["ctrl"; "control"; "alt"; "option"; "shift";
   "cmd"; "command"; "super"; "win"; "windows"].

Definition is_modifier (part : string) : bool :=
  existsb (String.eqb part) modifiers.

Definition bracket (part : string) : string := "<" ++ part ++ ">".

(** The loop of [_to_pynput_combo] over the pieces of the hotkey. *)
Fixpoint combo_parts (raws : list string) : list string :=
  match raws with
  | [] => []
  | raw :: rest =>
      let part := PyStr.lower (PyStr.strip raw) in
      if PyStr.is_empty part then combo_parts rest
      else if is_modifier part then bracket part :: combo_parts rest
      else if Nat.eqb (String.length part) 1 then part :: combo_parts rest
      else bracket part :: combo_parts rest
  end.

Definition _to_pynput_combo (hotkey : value) : outcome string :=
  if negb (Py.truthy hotkey) then Exc (ConfigError "Empty hotkey")
  else
    match hotkey with
    | VStr s =>
        match combo_parts (PyStr.split "+" s) with
        | [] => Exc (ConfigError ("Invalid hotkey '" ++ s ++ "'"))
        | parts => Val (PyStr.join "+" parts)
        end
    | _ => Exc AttributeError
    end.

(** A library call that returns nothing or raises. *)
Definition call (e : event) (result : option exn) : M unit :=
  emit e ;;
  match result with
  | None => ret tt
  | Some x => raise x
  end.

Definition is_ValueError (e : exn) : bool :=
  match e with ValueError => true | _ => false end.

(** The loop of [listen_with_keyboard]. Its [try] spans the whole loop;
    [keyboard.add_hotkey] is the one call in it that raises [ValueError],
    and the handler names the hotkey of the iteration that raised. *)
Fixpoint keyboard_register (server : value) (shortcuts : list value) : M unit :=
  match shortcuts with
  | [] => ret tt
  | action :: rest =>
      hotkey <- lift (Py.get action "hotkey" VNone) ;;
      if negb (Py.truthy hotkey) then keyboard_register server rest
      else
        try_except
          (call (EAddHotkey hotkey action) (keyboard_add_hotkey env hotkey))
          is_ValueError
          (fun exc =>
             raise (ConfigError ("Failed to register hotkey '" ++ py_str hotkey
                                   ++ "': " ++ exc_str exc))) ;;
        name <- lift (Py.getitem action "name") ;;
        print ("Registered hotkey '" ++ py_str hotkey ++ "' for '"
                 ++ py_str name ++ "'") ;;
        keyboard_register server rest
  end.

Definition listen_with_keyboard (server : value) (shortcuts : list value)
  : M unit :=
  if negb (keyboard env)
  then raise (ConfigError
    "keyboard backend unavailable; install it and run with permissions to read /dev/input")
  else
    keyboard_register server shortcuts ;;
    print "Listening for hotkeys (Ctrl+C to exit)..." ;;
    call EWait (keyboard_wait env).

(** The loop of [listen_with_pynput]. *)
Fixpoint pynput_register (server : value) (shortcuts : list value) : M unit :=
  match shortcuts with
  | [] => ret tt
  | action :: rest =>
      hotkey <- lift (Py.get action "hotkey" VNone) ;;
      if negb (Py.truthy hotkey) then pynput_register server rest
      else
        combo <- lift (_to_pynput_combo hotkey) ;;
        match HotKey_parse env combo with
        | Some exc =>
            if is_ValueError exc
            then raise (ConfigError ("Failed to parse hotkey '" ++ py_str hotkey
                                       ++ "': " ++ exc_str exc))
            else raise exc
        | None =>
            emit (EHotKey combo action) ;;
            name <- lift (Py.getitem action "name") ;;
            print ("Registered (pynput) '" ++ py_str hotkey ++ "' for '"
                     ++ py_str name ++ "'") ;;
            pynput_register server rest
        end
  end.

Definition listen_with_pynput (server : value) (shortcuts : list value)
  : M unit :=
  if negb (pynput_keyboard env)
  then raise (ConfigError
    "pynput backend unavailable; install it with `pip install pynput`")
  else
    pynput_register server shortcuts ;;
    print "Listening for hotkeys via pynput (Ctrl+C to exit)..." ;;
    call EListen (Listener_join env).

Definition register_hotkeys (server : value) (shortcuts : list value)
    (backend : string) : M unit :=
  if String.eqb backend "keyboard" then listen_with_keyboard server shortcuts
  else if String.eqb backend "pynput" then listen_with_pynput server shortcuts
  else raise (ConfigError ("Unknown backend '" ++ backend ++ "'")).

(** *** The background listener *)

(** [argparse.Namespace] as [main] fills it. *)
Record Namespace : Type := {
  args_config : Path;
  args_list : bool;
  args_trigger : option string;
  args_listen : bool;
  args_backend : string;
  args_background : bool;
  args_stop : bool
}.

Definition kill (pid sig : Z) : M unit :=
  call (EKill pid sig) (os_kill env pid sig).

Definition _is_running (pid : Z) : M bool :=
  try_except (kill pid 0 ;; ret true) is_OSError (fun _ => ret false).

Definition start_background (args : Namespace) : M Z :=
  present <- exists_ PID_FILE ;;
  running <-
    (if present then
       txt <- read_pid_file ;;
       let pid := PyStr.strip txt in
       if PyStr.is_empty pid then unlink PID_FILE ;; ret None
       else
         n <- lift (int pid) ;;
         alive <- _is_running n ;;
         if alive then
           print ("Already running (pid " ++ pid ++ "). Stop first with --stop.") ;;
           ret (Some 1)
         else unlink PID_FILE ;; ret None
     else ret None) ;;
  match running with
  | Some code => ret code
  | None =>
      let cmd := [sys_executable env; "-u"; script_path env; "--listen";
                  "--backend"; args_backend args;
                  "--config"; path_text (args_config args)] in
      open_append LOG_FILE ;;
      open_append LOG_FILE ;;
      spawned <-
        try_except
          (emit (EPopen cmd) ;; pid <- lift (Popen env cmd) ;; ret (inl pid))
          is_Exception
          (fun exc =>
             print ("Failed to start background listener: " ++ exc_str exc) ;;
             ret (inr 1)) ;;
      match spawned with
      | inr code => ret code
      | inl pid =>
          write_pid_file (PyStr.of_int pid) ;;
          print ("Started background listener (pid " ++ PyStr.of_int pid
                   ++ "). Logs: " ++ log_path env) ;;
          ret 0
      end
  end.

Definition is_ProcessLookupError (e : exn) : bool :=
  match e with ProcessLookupError => true | _ => false end.

Definition is_PermissionError (e : exn) : bool :=
  match e with PermissionError => true | _ => false end.

(** In the second [try], [Some code] is a [return code] inside the
    statement and [None] is falling out of it; the [finally] clause runs
    in both cases, and when the exception is not handled. *)
Definition stop_background : M Z :=
  present <- exists_ PID_FILE ;;
  if negb present then
    print "No pid file found. Nothing to stop." ;; ret 1
  else
    parsed <-
      try_except
        (txt <- read_pid_file ;; pid <- lift (int (PyStr.strip txt)) ;; ret (inl pid))
        is_Exception
        (fun _ =>
           print "Could not read pid file." ;;
           unlink PID_FILE ;;
           ret (inr 1)) ;;
    match parsed with
    | inr code => ret code
    | inl pid =>
        returned <-
          try_finally
            (try_except
               (kill pid SIGTERM ;;
                print ("Stopped process " ++ PyStr.of_int pid) ;;
                ret None)
               (fun e => is_ProcessLookupError e || is_PermissionError e)
               (fun e =>
                  if is_ProcessLookupError e then
                    print ("No process " ++ PyStr.of_int pid ++ " found") ;;
                    ret None
                  else
                    print ("Permission denied to stop process "
                             ++ PyStr.of_int pid) ;;
                    ret (Some 1)))
            (unlink PID_FILE ;; unlink LOG_FILE) ;;
        match returned with
        | Some code => ret code
        | None => ret 0
        end
    end.

(** *** The command line *)

(** [if s:] for an optional string argument. *)
Definition given (s : option string) : bool :=
  match s with
  | Some t => negb (PyStr.is_empty t)
  | None => false
  end.

(** [for action in shortcuts]: past [validate_config] the object is a
    list (lemma [validate_config_shape]). *)
Definition as_list (v : value) : outcome (list value) :=
  match v with
  | VList l => Val l
  | _ => Exc TypeError
  end.

Fixpoint print_actions (shortcuts : list value) : M unit :=
  match shortcuts with
  | [] => ret tt
  | action :: rest =>
      line <- lift (format_action action) ;;
      print (" - " ++ line) ;;
      print_actions rest
  end.

(** [[a for a in shortcuts if a.get("name") == name]]. *)
Fixpoint matches_of (name : string) (shortcuts : list value)
  : outcome (list value) :=
  match shortcuts with
  | [] => Val []
  | a :: rest =>
      let! n := Py.get a "name" VNone in
      let! ms := matches_of name rest in
      Val (if Py.eq_str n name then a :: ms else ms)
  end.

Definition is_ConfigError (e : exn) : bool :=
  match e with ConfigError _ => true | _ => false end.

(** [load_config] followed by [validate_config], inside the [try] of
    [main]: the validated object, or the exception. *)
Definition load_and_validate (path : Path) : outcome value :=
  let! cfg := load_config path in
  match validate_config cfg with
  | (Val _, cfg') => Val cfg'
  | (Exc e, _) => Exc e
  end.

Definition main (args : Namespace) : M Z :=
  if args_stop args then stop_background
  else if args_background args then start_background args
  else
    match load_and_validate (args_config args) with
    | Exc e =>
        if is_ConfigError e
        then print ("Config error: " ++ exc_str e) ;; ret 1
        else raise e
    | Val cfg =>
        server <- lift (Py.getitem cfg "server") ;;
        sv <- lift (Py.getitem cfg "shortcuts") ;;
        shortcuts <- lift (as_list sv) ;;
        (if args_list args then
           print "Configured shortcuts:" ;;
           print_actions shortcuts
         else ret tt) ;;
        if given (args_trigger args) then
          let name := match args_trigger args with Some t => t | None => "" end in
          ms <- lift (matches_of name shortcuts) ;;
          match ms with
          | [] => print ("No shortcut named '" ++ name ++ "'") ;; ret 1
          | first :: _ => trigger_action server first "cli" ;; ret 0
          end
        else if args_listen args
                || (negb (args_list args) && negb (given (args_trigger args)))
        then
          try_except
            (register_hotkeys server shortcuts (args_backend args) ;; ret 0)
            is_ConfigError
            (fun exc => print (exc_str exc) ;; ret 1)
        else ret 0
    end.

End Script.

(** ** The properties, stated *)

(** *** Strings *)

(** A run of [n] slashes. *)
Fixpoint slashes (n : nat) : string :=
  match n with
  | O => ""
  | S k => String "/" (slashes k)
  end.

Fixpoint last_char (s : string) : option ascii :=
  match s with
  | EmptyString => None
  | String c EmptyString => Some c
  | String _ r => last_char r
  end.

(** *** The hotkey translation, in the words of its description

    Split on [+], strip and lower-case every piece, leave the empty pieces
    out, bracket the modifiers and the pieces longer than one character. *)

Definition hotkey_tokens (s : string) : list string :=
  filter (fun t => negb (PyStr.is_empty t))
         (List.map (fun raw => PyStr.lower (PyStr.strip raw)) (PyStr.split "+" s)).

Definition wrap_token (t : string) : string :=
  if is_modifier t || Nat.ltb 1 (String.length t) then bracket t else t.

Definition translate_hotkey (s : string) : outcome string :=
  if PyStr.is_empty s then Exc (ConfigError "Empty hotkey")
  else
    match List.map wrap_token (hotkey_tokens s) with
    | [] => Exc (ConfigError ("Invalid hotkey '" ++ s ++ "'"))
    | parts => Val (PyStr.join "+" parts)
    end.

(** *** The configuration, in the words of its description *)

Definition is_dict (v : value) : bool :=
  match v with VDict _ => true | _ => false end.

(** The object [v] has something under the key [k]. *)
Definition has (k : string) (v : value) : bool :=
  match Py.getitem v k with Val _ => true | Exc _ => false end.

Definition required : list string := ["name"; "method"; "endpoint"].

Definition entry_complete (a : value) : bool :=
  forallb (fun k => has k a) required.

(** The violations listed for [validate_config]: a top-level key is
    absent, the server lacks [base_url] or [token], [shortcuts] is not a
    sequence, or an entry lacks one of the three required fields. *)
Definition config_violation (cfg : value) : bool :=
  negb (has "server" cfg) || negb (has "shortcuts" cfg)
  || match Py.getitem cfg "server" with
     | Val server => negb (has "base_url" server) || negb (has "token" server)
     | Exc _ => false
     end
  || match Py.getitem cfg "shortcuts" with
     | Val (VList l) => negb (forallb entry_complete l)
     | Val _ => true
     | Exc _ => false
     end.

Definition raises_ConfigError {A} (r : outcome A) : bool :=
  match r with Exc (ConfigError _) => true | _ => false end.

(** The configuration is a mapping, and so are its server and the entries
    of its list of shortcuts. *)
Definition well_shaped (cfg : value) : bool :=
  is_dict cfg
  && match Py.getitem cfg "server" with
     | Val server => is_dict server
     | Exc _ => true
     end
  && match Py.getitem cfg "shortcuts" with
     | Val (VList l) => forallb is_dict l
     | _ => true
     end.

(** A missing [body] becomes the empty mapping and a missing [hotkey]
    becomes [None]; nothing else changes. *)
Definition with_defaults (a : value) : value :=
  match a with
  | VDict d =>
      let d1 := if Py.has_key "body" d then d else (d ++ [("body", VDict [])])%list in
      VDict (if Py.has_key "hotkey" d1 then d1 else (d1 ++ [("hotkey", VNone)])%list)
  | _ => a
  end.

(** A shortcut as [validate_config] lets it through. *)
Definition valid_entry (a : value) : bool := is_dict a && entry_complete a.

(** *** What the script prints and does *)

(** The world after the events [es]. *)
Definition emit_all (es : list event) (w : World) : World :=
  {| trace := trace w ++ es; pid_file := pid_file w; log_file := log_file w |}.

(** The text of a field of a shortcut, and of its hotkey with the
    substitute for a missing one. *)
Definition field (env : Env) (k : string) (a : value) : string :=
  match Py.getitem a k with
  | Val v => py_str env v
  | Exc _ => ""
  end.

Definition hotkey_text (env : Env) (a : value) : string :=
  match Py.get a "hotkey" VNone with
  | Val h => if Py.truthy h then py_str env h else "(no hotkey)"
  | Exc _ => "(no hotkey)"
  end.

(** [NAME -> METHOD ENDPOINT HOTKEY]. *)
Definition listing_line (env : Env) (a : value) : string :=
  field env "name" a ++ " -> " ++ field env "method" a ++ " "
    ++ field env "endpoint" a ++ " " ++ hotkey_text env a.

(** The output of [--list]: the heading, then a bulleted line for each
    shortcut. *)
Definition listing_events (env : Env) (flag : bool) (l : list value)
  : list event :=
  if flag
  then EPrint "Configured shortcuts:"
         :: List.map (fun a => EPrint (" - " ++ listing_line env a)) l
  else [].

(** [a.get("name") == name]. *)
Definition named (name : string) (a : value) : bool :=
  match Py.get a "name" VNone with
  | Val n => Py.eq_str n name
  | Exc _ => false
  end.

(** The lines of [trigger_action]. *)
Definition triggering_line (env : Env) (source : string) (a : value) : string :=
  "[" ++ source ++ "] Triggering '" ++ field env "name" a ++ "' -> "
    ++ field env "method" a ++ " " ++ field env "endpoint" a.

Definition status_line (env : Env) (source : string) (a : value)
    (word : string) (status elapsed : Z) : string :=
  "[" ++ source ++ "] " ++ field env "name" a ++ ": " ++ word ++ " ("
    ++ PyStr.of_int status ++ ", " ++ PyStr.of_int elapsed ++ "ms)".

Definition response_lines (source : string) (r : Response) : list event :=
  if PyStr.is_empty (text r) then []
  else [EPrint ("[" ++ source ++ "] Response: " ++ text r)].

Definition error_line (env : Env) (source : string) (a : value) (e : exn)
  : string :=
  "[" ++ source ++ "] " ++ field env "name" a ++ ": error " ++ exc_str env e.

(** The word in the status line. *)
Definition reported_word (r : Response) : string :=
  if ok r then "ok" else "fail".

(** What [trigger_action] does on a validated shortcut, case by case: the
    request cannot be built, the server answers, the transport raises. *)
Definition trigger_events (env : Env) (server a : value) (source : string)
  : list event :=
  let head := EPrint (triggering_line env source a) in
  match build_request env server a with
  | Exc e => [head; EPrint (error_line env source a e)]
  | Val q =>
      match requests_request env q with
      | inl r =>
          ([head; ERequest q;
            EPrint (status_line env source a (reported_word r)
                      (status_code r) (elapsed_ms env q))]
             ++ response_lines source r)%list
      | inr msg =>
          [head; ERequest q;
           EPrint (error_line env source a (RequestException msg))]
      end
  end.

(** The success range of HTTP status codes. *)
Definition is_2xx (status : Z) : bool :=
  (200 <=? status)%Z && (status <? 300)%Z.

(** The world after [stop_background] has signalled [pid], printed
    [lines] and run its [finally] clause. *)
Definition stopped (w : World) (pid : Z) (lines : list event) : World :=
  {| trace := trace w ++ EKill pid SIGTERM :: lines
                ++ [EUnlink PID_FILE; EUnlink LOG_FILE];
     pid_file := None;
     log_file := false |}.

(** The command line of the child process. *)
Definition spawn_command (env : Env) (args : Namespace) : list string :=
  [sys_executable env; "-u"; script_path env; "--listen";
   "--backend"; args_backend args; "--config"; path_text (args_config args)].

(** *** Sample data *)

Definition sample_server : value :=
  VDict [("base_url", VStr "http://ha.local:8123/"); ("token", VStr "secret")].

Definition sample_action : value :=
  VDict [("name", VStr "table_led"); ("method", VStr "post");
         ("endpoint", VStr "/api/services/light/toggle");
         ("body", VDict [("entity_id", VStr "light.table")]);
         ("hotkey", VStr "ctrl+alt+l")].

Definition sample_config : value :=
  VDict [("server", sample_server); ("shortcuts", VList [sample_action])].

(** A configuration whose one shortcut has empty fields. *)
Definition blank_config : value :=
  VDict [("server", sample_server);
         ("shortcuts",
          VList [VDict [("name", VStr ""); ("method", VStr "");
                        ("endpoint", VStr "")]])].

(** A configuration file with [server:] left without a value. *)
Definition null_server_config : value :=
  VDict [("server", VNone); ("shortcuts", VList [])].

(** A shortcut bound to the empty hotkey. *)
Definition unbound_entry : list (string * value) :=
  [("name", VStr "porch"); ("method", VStr "post");
   ("endpoint", VStr "/api/services/light/turn_on");
   ("body", VDict []); ("hotkey", VStr "")].

(** An environment: the transport answers every request with [answer],
    every signal ends as [signalled], the configuration file holds what
    [yaml_safe_load] turns into [cfg]. *)
Definition sample_env (answer : Response + string) (signalled : option exn)
    (cfg : value) : Env :=
  {| py_repr := fun _ => "{...}";
     exc_text := fun _ => "failure";
     requests_request := fun _ => answer;
     elapsed_ms := fun _ => 12;
     os_kill := fun _ _ => signalled;
     Popen := fun _ => Val 4242;
     sys_executable := "/usr/bin/python3";
     script_path := "/opt/ha/ha_shortcuts.py";
     log_path := "/opt/ha/ha_shortcuts.out";
     read_text := fun _ => Some "";
     yaml_safe_load := fun _ => Val cfg;
     json_loads := fun _ => Val cfg;
     keyboard := true;
     keyboard_add_hotkey := fun _ => None;
     keyboard_wait := Some KeyboardInterrupt;
     pynput_keyboard := true;
     HotKey_parse := fun _ => None;
     Listener_join := Some KeyboardInterrupt |}.

Definition sample_response (status : Z) : Response :=
  {| ok := requests_ok status; status_code := status; text := "" |}.

Definition quiet_env : Env :=
  sample_env (inl (sample_response 200)) None sample_config.

(** Signals are refused for lack of permission. *)
Definition denied_env : Env :=
  sample_env (inl (sample_response 200)) (Some PermissionError) sample_config.

(** The server answers 304 Not Modified. *)
Definition not_modified_env : Env :=
  sample_env (inl (sample_response 304)) None sample_config.

Definition empty_world : World :=
  {| trace := []; pid_file := None; log_file := false |}.

(** A pid file left by a listener with pid 4242. *)
Definition running_world : World :=
  {| trace := []; pid_file := Some "4242"; log_file := true |}.

Definition sample_args (list_flag : bool) (name : option string) : Namespace :=
  {| args_config := {| path_text := "config.yaml"; path_suffix := ".yaml" |};
     args_list := list_flag;
     args_trigger := name;
     args_listen := false;
     args_backend := "keyboard";
     args_background := false;
     args_stop := false |}.

(** *** The claims that fail, as they are worded *)

(** C2 as it is worded: the status line says [ok] exactly for a status
    code in the range 200..299. *)
Definition ok_only_on_2xx : Prop :=
  forall (env : Env) (args : Namespace) (w : World) (cfg server : value)
         (l : list value) (name : string) (first : value) (rest : list value)
         (q : HttpRequest) (r : Response),
    args_stop args = false ->
    args_background args = false ->
    load_and_validate env (args_config args) = Val cfg ->
    args_trigger args = Some name ->
    name <> "" ->
    Py.getitem cfg "server" = Val server ->
    Py.getitem cfg "shortcuts" = Val (VList l) ->
    filter (named name) l = first :: rest ->
    build_request env server first = Val q ->
    requests_request env q = inl r ->
    ok r = requests_ok (status_code r) ->
    In (EPrint (status_line env "cli" first
                  (if is_2xx (status_code r) then "ok" else "fail")
                  (status_code r) (elapsed_ms env q)))
       (trace (snd (main env args w))).

(** C3 as it is worded: after a permission error [stop_background]
    returns 1 and the pid file is as it was. *)
Definition permission_denied_keeps_pid_file : Prop :=
  forall (env : Env) (w : World) (txt : string) (pid : Z),
    pid_file w = Some txt ->
    int (PyStr.strip txt) = Val pid ->
    os_kill env pid SIGTERM = Some PermissionError ->
    fst (stop_background env w) = Val 1 /\
    pid_file (snd (stop_background env w)) = pid_file w.

(** C4 as it is worded: an accepted configuration has a non-empty value
    under each required field of each shortcut. *)
Definition accepted_fields_nonempty : Prop :=
  forall (env : Env) (cfg cfg' : value) (l : list value) (a : value) (k : string),
    validate_config env cfg = (Val tt, cfg') ->
    Py.getitem cfg "shortcuts" = Val (VList l) ->
    In a l -> In k required ->
    exists v, Py.getitem a k = Val v /\ v <> VStr "".

(** C5 as it is worded: [ConfigError] exactly on the listed violations. *)
Definition ConfigError_exactly_on_violation : Prop :=
  forall (env : Env) (cfg : value),
    raises_ConfigError (fst (validate_config env cfg)) = config_violation cfg.

(** C7 as it is worded: for every name, no match gives exit code 1 and
    no HTTP call, and a match fires the first matching shortcut once and
    gives exit code 0. *)
Definition trigger_claim : Prop :=
  forall (env : Env) (args : Namespace) (w : World) (cfg server : value)
         (l : list value) (name : string),
    args_stop args = false ->
    args_background args = false ->
    load_and_validate env (args_config args) = Val cfg ->
    args_trigger args = Some name ->
    Py.getitem cfg "server" = Val server ->
    Py.getitem cfg "shortcuts" = Val (VList l) ->
    match filter (named name) l with
    | [] =>
        fst (main env args w) = Val 1 /\
        http_calls (trace (snd (main env args w))) = http_calls (trace w)
    | first :: _ =>
        fst (main env args w) = Val 0 /\
        snd (main env args w) =
          snd (trigger_action env server first "cli"
                 (emit_all (listing_events env (args_list args) l) w))
    end.

(** C9 as it is worded: the listing prints one line for each shortcut,
    the line [NAME -> METHOD ENDPOINT HOTKEY], and nothing else. *)
Definition list_prints_bare_lines : Prop :=
  forall (env : Env) (args : Namespace) (w : World) (cfg : value)
         (l : list value),
    args_stop args = false ->
    args_background args = false ->
    load_and_validate env (args_config args) = Val cfg ->
    args_list args = true ->
    given (args_trigger args) = false ->
    args_listen args = false ->
    Py.getitem cfg "shortcuts" = Val (VList l) ->
    printed (trace (snd (main env args w))) =
      (printed (trace w) ++ List.map (listing_line env) l)%list.
(** ** Further statements *)

(** *** Decimal numerals *)

(** The number a run of decimal digits stands for, read from the left
    with [acc] for the digits already read. *)
Fixpoint uint_value (d : Decimal.uint) (acc : Z) : Z :=
  match d with
  | Decimal.Nil => acc
  | Decimal.D0 l => uint_value l (10 * acc + 0)
  | Decimal.D1 l => uint_value l (10 * acc + 1)
  | Decimal.D2 l => uint_value l (10 * acc + 2)
  | Decimal.D3 l => uint_value l (10 * acc + 3)
  | Decimal.D4 l => uint_value l (10 * acc + 4)
  | Decimal.D5 l => uint_value l (10 * acc + 5)
  | Decimal.D6 l => uint_value l (10 * acc + 6)
  | Decimal.D7 l => uint_value l (10 * acc + 7)
  | Decimal.D8 l => uint_value l (10 * acc + 8)
  | Decimal.D9 l => uint_value l (10 * acc + 9)
  end.

(** No character of the string is one [strip] removes. *)
Fixpoint no_space (s : string) : bool :=
  match s with
  | EmptyString => true
  | String c r => negb (PyStr.is_space c) && no_space r
  end.

(** *** The background listener, once more *)

(** The world after [start_background] has spawned the child [pid] from a
    state without a pid file. *)
Definition started (env : Env) (args : Namespace) (w : World) (pid : Z)
  : World :=
  {| trace := trace w ++
       [EOpenAppend LOG_FILE; EOpenAppend LOG_FILE;
        EPopen (spawn_command env args);
        EWrite PID_FILE (PyStr.of_int pid);
        EPrint ("Started background listener (pid " ++ PyStr.of_int pid
                  ++ "). Logs: " ++ log_path env)];
     pid_file := Some (PyStr.of_int pid);
     log_file := true |}.

(** The exit code and the printed line of [stop_background] for each way
    the termination signal can end. *)
Definition stop_result (env : Env) (pid : Z) (w : World) : outcome Z * World :=
  match os_kill env pid SIGTERM with
  | None =>
      (Val 0, stopped w pid [EPrint ("Stopped process " ++ PyStr.of_int pid)])
  | Some ProcessLookupError =>
      (Val 0, stopped w pid
                [EPrint ("No process " ++ PyStr.of_int pid ++ " found")])
  | Some PermissionError =>
      (Val 1, stopped w pid
                [EPrint ("Permission denied to stop process "
                           ++ PyStr.of_int pid)])
  | Some e => (Exc e, stopped w pid [])
  end.

(** An environment in which the signal is delivered and the child gets
    the pid 4242. *)
Definition spawning_args : Namespace :=
  {| args_config := {| path_text := "config.yaml"; path_suffix := ".yaml" |};
     args_list := false;
     args_trigger := None;
     args_listen := false;
     args_backend := "keyboard";
     args_background := true;
     args_stop := false |}.

Definition stopping_args : Namespace :=
  {| args_config := {| path_text := "config.yaml"; path_suffix := ".yaml" |};
     args_list := false;
     args_trigger := None;
     args_listen := false;
     args_backend := "keyboard";
     args_background := false;
     args_stop := true |}.

(** An environment in which no process can be spawned. *)
Definition failing_spawn_env : Env :=
  {| py_repr := py_repr quiet_env;
     exc_text := exc_text quiet_env;
     requests_request := requests_request quiet_env;
     elapsed_ms := elapsed_ms quiet_env;
     os_kill := os_kill quiet_env;
     Popen := fun _ => Exc OSError;
     sys_executable := sys_executable quiet_env;
     script_path := script_path quiet_env;
     log_path := log_path quiet_env;
     read_text := read_text quiet_env;
     yaml_safe_load := yaml_safe_load quiet_env;
     json_loads := json_loads quiet_env;
     keyboard := keyboard quiet_env;
     keyboard_add_hotkey := keyboard_add_hotkey quiet_env;
     keyboard_wait := keyboard_wait quiet_env;
     pynput_keyboard := pynput_keyboard quiet_env;
     HotKey_parse := HotKey_parse quiet_env;
     Listener_join := Listener_join quiet_env |}.

(** *** The configuration, once more *)

(** The first of the required fields that the mapping [d] lacks. *)
Definition first_missing (d : list (string * value)) : option string :=
  find (fun k => negb (Py.has_key k d)) required.

(** How [validate_config] may change a shortcut: every key that is there
    keeps its value, and [body] and [hotkey] are there afterwards, with
    the default where they were missing. *)
Definition defaulted (a a' : value) : Prop :=
  (forall k v, Py.getitem a k = Val v -> Py.getitem a' k = Val v) /\
  (has "body" a = false -> Py.getitem a' "body" = Val (VDict [])) /\
  (has "hotkey" a = false -> Py.getitem a' "hotkey" = Val VNone) /\
  (forall k, k <> "body" -> k <> "hotkey" -> Py.getitem a' k = Py.getitem a k).

(** A configuration whose second shortcut lacks its endpoint. *)
Definition incomplete_config : value :=
  VDict [("server", sample_server);
         ("shortcuts",
          VList [VDict [("name", VStr "a"); ("method", VStr "get");
                        ("endpoint", VStr "/x")];
                 VDict [("name", VStr "b"); ("method", VStr "get")];
                 VDict [("name", VStr "c")]])].

(** *** Loading and triggering, once more *)

(** An object on which a membership test raises [TypeError]: [None], a
    truth value or a number. *)
Definition is_scalar (v : value) : bool :=
  match v with
  | VNone | VBool _ | VInt _ => true
  | _ => false
  end.

(** An environment without a configuration file, one whose file does not
    parse, one whose file is empty, and one whose server does not
    answer. *)
Definition with_config (text : option string) (parsed : outcome value)
    (answer : Response + string) : Env :=
  {| py_repr := py_repr quiet_env;
     exc_text := exc_text quiet_env;
     requests_request := fun _ => answer;
     elapsed_ms := elapsed_ms quiet_env;
     os_kill := os_kill quiet_env;
     Popen := Popen quiet_env;
     sys_executable := sys_executable quiet_env;
     script_path := script_path quiet_env;
     log_path := log_path quiet_env;
     read_text := fun _ => text;
     yaml_safe_load := fun _ => parsed;
     json_loads := fun _ => parsed;
     keyboard := keyboard quiet_env;
     keyboard_add_hotkey := keyboard_add_hotkey quiet_env;
     keyboard_wait := keyboard_wait quiet_env;
     pynput_keyboard := pynput_keyboard quiet_env;
     HotKey_parse := HotKey_parse quiet_env;
     Listener_join := Listener_join quiet_env |}.

Definition no_file_env : Env :=
  with_config None (Val sample_config) (inl (sample_response 200)).

Definition broken_file_env : Env :=
  {| py_repr := py_repr quiet_env;
     exc_text := exc_text quiet_env;
     requests_request := requests_request quiet_env;
     elapsed_ms := elapsed_ms quiet_env;
     os_kill := os_kill quiet_env;
     Popen := Popen quiet_env;
     sys_executable := sys_executable quiet_env;
     script_path := script_path quiet_env;
     log_path := log_path quiet_env;
     read_text := fun _ => Some "server: [";
     yaml_safe_load := fun _ => Exc YAMLError;
     json_loads := fun _ => Val sample_config;
     keyboard := keyboard quiet_env;
     keyboard_add_hotkey := keyboard_add_hotkey quiet_env;
     keyboard_wait := keyboard_wait quiet_env;
     pynput_keyboard := pynput_keyboard quiet_env;
     HotKey_parse := HotKey_parse quiet_env;
     Listener_join := Listener_join quiet_env |}.

Definition empty_file_env : Env :=
  with_config (Some "") (Val VNone) (inl (sample_response 200)).

Definition unreachable_env : Env :=
  with_config (Some "") (Val sample_config) (inr "Connection refused").

(** A server whose [base_url] is a number. *)
Definition numeric_server : value :=
  VDict [("base_url", VInt 8123); ("token", VStr "secret")].

(** *** Registration, once more *)

(** What the [keyboard] backend does for one shortcut: nothing without a
    hotkey, else the library call and the printed line. *)
Definition keyboard_events (env : Env) (a : value) : list event :=
  match Py.get a "hotkey" VNone with
  | Val h =>
      if Py.truthy h
      then [EAddHotkey h a;
            EPrint ("Registered hotkey '" ++ py_str env h ++ "' for '"
                      ++ field env "name" a ++ "'")]
      else []
  | Exc _ => []
  end.

(** The [keyboard] library takes the hotkey of the shortcut, if it has
    one. *)
Definition keyboard_accepts (env : Env) (a : value) : bool :=
  match Py.get a "hotkey" VNone with
  | Val h =>
      negb (Py.truthy h)
      || match keyboard_add_hotkey env h with None => true | Some _ => false end
  | Exc _ => false
  end.

(** The same for the [pynput] backend, which registers the translated
    combination. *)
Definition pynput_events (env : Env) (a : value) : list event :=
  match Py.get a "hotkey" VNone with
  | Val h =>
      if Py.truthy h
      then match _to_pynput_combo h with
           | Val combo =>
               [EHotKey combo a;
                EPrint ("Registered (pynput) '" ++ py_str env h ++ "' for '"
                          ++ field env "name" a ++ "'")]
           | Exc _ => []
           end
      else []
  | Exc _ => []
  end.

Definition pynput_accepts (env : Env) (a : value) : bool :=
  match Py.get a "hotkey" VNone with
  | Val h =>
      negb (Py.truthy h)
      || match _to_pynput_combo h with
         | Val combo =>
             match HotKey_parse env combo with None => true | Some _ => false end
         | Exc _ => false
         end
  | Exc _ => false
  end.

(** How a blocking wait of a hotkey library ends. *)
Definition ended (result : option exn) : outcome unit :=
  match result with
  | None => Val tt
  | Some e => Exc e
  end.

(** A shortcut bound to a combination the library refuses, and an
    environment whose [keyboard] library refuses every combination. *)
Definition second_action : value :=
  VDict [("name", VStr "desk"); ("method", VStr "post");
         ("endpoint", VStr "/api/services/light/turn_off");
         ("body", VDict []); ("hotkey", VStr "Ctrl + F5")].

Definition refusing_env : Env :=
  {| py_repr := py_repr quiet_env;
     exc_text := exc_text quiet_env;
     requests_request := requests_request quiet_env;
     elapsed_ms := elapsed_ms quiet_env;
     os_kill := os_kill quiet_env;
     Popen := Popen quiet_env;
     sys_executable := sys_executable quiet_env;
     script_path := script_path quiet_env;
     log_path := log_path quiet_env;
     read_text := read_text quiet_env;
     yaml_safe_load := yaml_safe_load quiet_env;
     json_loads := json_loads quiet_env;
     keyboard := true;
     keyboard_add_hotkey := fun _ => Some ValueError;
     keyboard_wait := keyboard_wait quiet_env;
     pynput_keyboard := false;
     HotKey_parse := HotKey_parse quiet_env;
     Listener_join := Listener_join quiet_env |}.

(** A shortcut whose hotkey has no key in it. *)
Definition blank_hotkey_action : value :=
  VDict [("name", VStr "hall"); ("method", VStr "post");
         ("endpoint", VStr "/api/services/light/toggle");
         ("body", VDict []); ("hotkey", VStr " + ")].

(** An environment whose [pynput] library parses no combination. *)
Definition unparsing_env : Env :=
  {| py_repr := py_repr quiet_env;
     exc_text := exc_text quiet_env;
     requests_request := requests_request quiet_env;
     elapsed_ms := elapsed_ms quiet_env;
     os_kill := os_kill quiet_env;
     Popen := Popen quiet_env;
     sys_executable := sys_executable quiet_env;
     script_path := script_path quiet_env;
     log_path := log_path quiet_env;
     read_text := read_text quiet_env;
     yaml_safe_load := yaml_safe_load quiet_env;
     json_loads := json_loads quiet_env;
     keyboard := false;
     keyboard_add_hotkey := keyboard_add_hotkey quiet_env;
     keyboard_wait := keyboard_wait quiet_env;
     pynput_keyboard := true;
     HotKey_parse := fun _ => Some ValueError;
     Listener_join := Listener_join quiet_env |}.

(** *** Listening from the command line *)


(** [main] goes on to the hotkeys: no name to trigger, and [--listen] or
    no [--list]. *)
Definition listens (args : Namespace) : bool :=
  negb (given (args_trigger args))
  && (args_listen args || negb (args_list args)).




(** ** Proofs *)

(** Unfold the monad and the primitive effects. *)
Ltac run :=
  unfold kill, request;
  unfold call, print;
  unfold emit, exists_, read_pid_file, unlink, open_append, write_pid_file;
  unfold try_except, try_finally, lift, raise, ret, bind;
  cbn beta iota zeta delta [trace pid_file log_file fst snd negb].

(** *** Strings *)

Lemma mem_slash (c : ascii) : PyStr.mem c "/" = true <-> c = "/"%char.
Proof.
  unfold PyStr.mem; simpl. rewrite orb_false_r. apply Ascii.eqb_eq.
Qed.

Lemma last_char_cons (c : ascii) (s : string) :
  s <> "" -> last_char (String c s) = last_char s.
Proof. destruct s; [congruence | reflexivity]. Qed.

(** [rstrip] cuts a run of slashes off the end and leaves no slash there. *)
Lemma rstrip_slash_spec (s : string) :
  (exists n, s = PyStr.rstrip "/" s ++ slashes n) /\
  last_char (PyStr.rstrip "/" s) <> Some "/"%char.
Proof.
  unfold PyStr.rstrip.
  induction s as [| c r [[n Hn] Hlast]]; simpl.
  - split; [exists O; reflexivity | discriminate].
  - destruct (PyStr.rstrip_by _ r) as [| c' r'] eqn:E.
    + destruct (PyStr.mem c "/") eqn:Hc.
      * apply mem_slash in Hc; subst c.
        split; [exists (S n); simpl in *; congruence | discriminate].
      * split; [exists n; simpl in *; congruence |].
        simpl. intros H; inversion H; subst c.
        assert (PyStr.mem "/" "/" = true) by reflexivity. congruence.
    + split.
      * exists n. simpl in *. congruence.
      * rewrite last_char_cons by discriminate. exact Hlast.
Qed.

(** *** The hotkey translation *)

Lemma is_empty_length (t : string) :
  PyStr.is_empty t = false -> String.length t <> O.
Proof. destruct t; simpl; [discriminate | intros _; discriminate]. Qed.

Lemma combo_parts_tokens (raws : list string) :
  combo_parts raws =
  List.map wrap_token
    (filter (fun t => negb (PyStr.is_empty t))
       (List.map (fun raw => PyStr.lower (PyStr.strip raw)) raws)).
Proof.
  induction raws as [| raw rest IH]; simpl; [reflexivity |].
  destruct (PyStr.is_empty (PyStr.lower (PyStr.strip raw))) eqn:He; simpl;
    [exact IH |].
  unfold wrap_token at 1.
  destruct (is_modifier _) eqn:Hm; simpl; [now rewrite IH |].
  apply is_empty_length in He.
  destruct (Nat.eqb_spec (String.length (PyStr.lower (PyStr.strip raw))) 1)
    as [H1 | H1].
  - rewrite H1. simpl. now rewrite IH.
  - destruct (Nat.ltb_spec 1 (String.length (PyStr.lower (PyStr.strip raw))));
      [now rewrite IH | lia].
Qed.

(** C6. For every hotkey string, [_to_pynput_combo] splits it on [+],
    strips and lower-cases each token, puts every token that is a known
    modifier or longer than one character in angle brackets and leaves
    the tokens of one character bare; [ctrl+alt+l] gives the tokens
    [<ctrl>], [<alt>] and [l]. *)
Theorem to_pynput_combo_translation :
  (forall s : string, _to_pynput_combo (VStr s) = translate_hotkey s) /\
  combo_parts (PyStr.split "+" "ctrl+alt+l") = ["<ctrl>"; "<alt>"; "l"] /\
  _to_pynput_combo (VStr "ctrl+alt+l") = Val "<ctrl>+<alt>+l".
Proof.
  split; [| split; reflexivity].
  intros s. unfold _to_pynput_combo, translate_hotkey, hotkey_tokens. simpl.
  destruct (PyStr.is_empty s); simpl; [reflexivity |].
  now rewrite combo_parts_tokens.
Qed.

(** *** The action executor *)

(** C1. For every server and shortcut, [send_request] asks for the URL
    made of [base_url] without its trailing slashes followed by the
    endpoint, with the method in upper case, the headers [Authorization:
    Bearer <token>] and [Content-Type: application/json], the body as JSON
    when the body mapping is not empty and no body when it is, and a
    timeout of 15 seconds. *)
Theorem send_request_contract (env : Env) (server action : value)
    (base_url token endpoint method : string) (body : list (string * value))
    (w : World) :
  Py.getitem server "base_url" = Val (VStr base_url) ->
  Py.getitem server "token" = Val (VStr token) ->
  Py.getitem action "endpoint" = Val (VStr endpoint) ->
  Py.getitem action "method" = Val (VStr method) ->
  Py.get action "body" (VDict []) = Val (VDict body) ->
  let q := {| req_method := PyStr.upper method;
              req_url := PyStr.rstrip "/" base_url ++ endpoint;
              req_headers := [("Authorization", "Bearer " ++ token);
                              ("Content-Type", "application/json")];
              req_json := match body with [] => VNone | _ => VDict body end;
              req_timeout := 15 |} in
  build_request env server action = Val q /\
  (exists n, base_url = PyStr.rstrip "/" base_url ++ slashes n) /\
  last_char (PyStr.rstrip "/" base_url) <> Some "/"%char /\
  send_request env server action w =
    (match requests_request env q with
     | inl r => Val {| res_ok := ok r;
                       res_status := status_code r;
                       res_elapsed_ms := elapsed_ms env q;
                       res_text := text r |}
     | inr msg => Exc (RequestException msg)
     end,
     {| trace := trace w ++ [ERequest q];
        pid_file := pid_file w;
        log_file := log_file w |}).
Proof.
  intros Hb Ht He Hm Hbody q.
  assert (Hq : build_request env server action = Val q).
  { unfold build_request. rewrite Hb; simpl. rewrite He; simpl.
    rewrite Hm; simpl. rewrite Hbody; simpl. rewrite Ht; simpl.
    unfold q, Py.or_. destruct body; reflexivity. }
  split; [exact Hq |].
  destruct (rstrip_slash_spec base_url) as [Hn Hl].
  split; [exact Hn |]. split; [exact Hl |].
  unfold send_request. run. rewrite Hq.
  destruct (requests_request env q); reflexivity.
Qed.

Lemma send_request_contract_witness :
  let q := {| req_method := PyStr.upper "post";
              req_url := PyStr.rstrip "/" "http://ha.local:8123/"
                           ++ "/api/services/light/toggle";
              req_headers := [("Authorization", "Bearer " ++ "secret");
                              ("Content-Type", "application/json")];
              req_json := VDict [("entity_id", VStr "light.table")];
              req_timeout := 15 |} in
  build_request quiet_env sample_server sample_action = Val q /\
  (exists n, "http://ha.local:8123/"
             = PyStr.rstrip "/" "http://ha.local:8123/" ++ slashes n) /\
  last_char (PyStr.rstrip "/" "http://ha.local:8123/") <> Some "/"%char /\
  send_request quiet_env sample_server sample_action empty_world =
    (match requests_request quiet_env q with
     | inl r => Val {| res_ok := ok r;
                       res_status := status_code r;
                       res_elapsed_ms := elapsed_ms quiet_env q;
                       res_text := text r |}
     | inr msg => Exc (RequestException msg)
     end,
     {| trace := trace empty_world ++ [ERequest q];
        pid_file := pid_file empty_world;
        log_file := log_file empty_world |}).
Proof.
  apply (send_request_contract quiet_env sample_server sample_action
           "http://ha.local:8123/" "secret" "/api/services/light/toggle" "post"
           [("entity_id", VStr "light.table")] empty_world);
    reflexivity.
Defined.

(** *** The configuration *)

Lemma has_dict (k : string) (d : list (string * value)) :
  has k (VDict d) = Py.has_key k d.
Proof. unfold has, Py.has_key; simpl. destruct (Py.lookup k d); reflexivity. Qed.

Lemma has_key_lookup (k : string) (d : list (string * value)) :
  Py.has_key k d = true -> exists v, Py.lookup k d = Some v.
Proof.
  unfold Py.has_key. destruct (Py.lookup k d) as [v |]; [eauto | discriminate].
Qed.

Lemma lookup_store_same (k : string) (x : value) (d : list (string * value)) :
  Py.has_key k d = true -> Py.lookup k (Py.store k x d) = Some x.
Proof.
  unfold Py.has_key.
  induction d as [| [k' v] rest IH]; simpl; [discriminate |].
  destruct (String.eqb k k') eqn:E; simpl; rewrite E; [reflexivity | exact IH].
Qed.

Lemma lookup_store_other (k k' : string) (x : value) (d : list (string * value)) :
  String.eqb k k' = false -> Py.lookup k (Py.store k' x d) = Py.lookup k d.
Proof.
  intros Hk. induction d as [| [k0 v] rest IH]; simpl; [reflexivity |].
  destruct (String.eqb k' k0) eqn:E; simpl.
  - apply String.eqb_eq in E; subst k0. rewrite Hk. reflexivity.
  - destruct (String.eqb k k0); [reflexivity | exact IH].
Qed.

(** On a mapping, the three membership tests of the loop are the three
    key lookups. *)
Lemma check_fields_dict (env : Env) (d : list (string * value)) :
  (entry_complete (VDict d) = true /\
   check_fields env required (VDict d) = Val tt) \/
  (entry_complete (VDict d) = false /\
   exists msg, check_fields env required (VDict d) = Exc (ConfigError msg)).
Proof.
  unfold entry_complete, required; simpl. rewrite !has_dict.
  destruct (Py.has_key "name" d); simpl; [| right; eauto].
  destruct (Py.has_key "method" d); simpl; [| right; eauto].
  destruct (Py.has_key "endpoint" d); simpl; [left; auto | right; eauto].
Qed.

(** An entry that passes the loop body is a mapping with the three keys. *)
Lemma check_fields_setdefault (env : Env) (a a1 : value) :
  check_fields env required a = Val tt ->
  Py.setdefault a "body" (VDict []) = Val a1 ->
  is_dict a = true /\ entry_complete a = true.
Proof.
  destruct a as [ | | | | | d]; simpl; try discriminate.
  intros Hc _. split; [reflexivity |].
  destruct (check_fields_dict env d) as [[H _] | [_ [msg H]]]; [exact H |].
  unfold required in H. simpl in H, Hc. congruence.
Qed.

Lemma setdefaults_dict (d : list (string * value)) :
  exists a1, Py.setdefault (VDict d) "body" (VDict []) = Val a1 /\
             Py.setdefault a1 "hotkey" VNone = Val (with_defaults (VDict d)).
Proof. eexists; split; reflexivity. Qed.

Lemma validate_shortcuts_ok (env : Env) (l l' : list value) :
  validate_shortcuts env l = (Val tt, l') ->
  l' = List.map with_defaults l /\
  Forall (fun a => is_dict a = true /\ entry_complete a = true) l.
Proof.
  revert l'. induction l as [| a rest IH]; cbn [validate_shortcuts]; intros l' H.
  - inversion H; auto.
  - fold required in H.
    destruct (check_fields env required a) as [[] | e] eqn:Hc; [| discriminate].
    destruct (Py.setdefault a "body" (VDict [])) as [a1 | e] eqn:H1;
      [| discriminate].
    destruct (check_fields_setdefault env a a1 Hc H1) as [Hd Hcomplete].
    destruct a as [ | | | | | d]; try discriminate.
    destruct (setdefaults_dict d) as [a1' [H1' H2]].
    rewrite H1 in H1'. inversion H1'; subst a1'; clear H1'.
    rewrite H2 in H.
    destruct (validate_shortcuts env rest) as [r rest'] eqn:Hr.
    inversion H; subst r l'; clear H.
    destruct (IH rest' eq_refl) as [-> Hall].
    split; [reflexivity | constructor; auto].
Qed.

Lemma validate_shortcuts_dicts (env : Env) (l : list value) :
  forallb is_dict l = true ->
  (forallb entry_complete l = true /\
   validate_shortcuts env l = (Val tt, List.map with_defaults l)) \/
  (forallb entry_complete l = false /\
   exists msg l', validate_shortcuts env l = (Exc (ConfigError msg), l')).
Proof.
  induction l as [| a rest IH]; cbn [validate_shortcuts forallb List.map];
    intros Hd; [left; auto |].
  apply andb_true_iff in Hd. destruct Hd as [Ha Hrest].
  destruct a as [ | | | | | d]; try discriminate.
  fold required.
  destruct (check_fields_dict env d) as [[Hc Hf] | [Hc [msg Hf]]];
    rewrite Hc, Hf.
  - destruct (setdefaults_dict d) as [a1 [H1 H2]]. rewrite H1, H2.
    destruct (IH Hrest) as [[Hall Hv] | [Hall [msg [l' Hv]]]];
      rewrite Hall, Hv; [left; auto | right; eauto].
  - right; eauto.
Qed.

(** What an accepted configuration looks like, before and after. *)
Lemma validate_config_ok (env : Env) (cfg cfg' : value) :
  validate_config env cfg = (Val tt, cfg') ->
  exists d server l,
    cfg = VDict d /\
    Py.lookup "server" d = Some server /\
    Py.lookup "shortcuts" d = Some (VList l) /\
    Forall (fun a => is_dict a = true /\ entry_complete a = true) l /\
    cfg' = VDict (Py.store "shortcuts" (VList (List.map with_defaults l)) d).
Proof.
  unfold validate_config. intros H.
  destruct cfg as [ | b | z | s | l0 | d]; cbn [Py.contains Py.getitem obind] in H;
    try discriminate.
  - destruct (PyStr.contains "server" s); cbn [obind negb andb] in H;
      [destruct (PyStr.contains "shortcuts" s) |]; discriminate.
  - destruct (existsb _ l0); cbn [obind negb andb] in H;
      [destruct (existsb _ l0) |]; discriminate.
  - unfold Py.has_key in H.
    destruct (Py.lookup "server" d) as [server |] eqn:Hs;
      cbn [obind negb andb] in H; [| discriminate].
    destruct (Py.lookup "shortcuts" d) as [sv |] eqn:Hl;
      cbn [obind negb andb] in H; [| discriminate].
    destruct (Py.contains "base_url" server) as [[] | e];
      cbn [obind negb andb] in H; try discriminate.
    destruct (Py.contains "token" server) as [[] | e];
      cbn [obind negb andb] in H; try discriminate.
    destruct sv as [ | | | | l | ]; try discriminate.
    destruct (validate_shortcuts env l) as [r l'] eqn:Hv.
    inversion H; subst r cfg'; clear H.
    destruct (validate_shortcuts_ok env l l' Hv) as [-> Hall].
    exists d, server, l. auto.
Qed.

Lemma accepted_entries (env : Env) (cfg cfg' : value) (l : list value) (a : value) :
  validate_config env cfg = (Val tt, cfg') ->
  Py.getitem cfg "shortcuts" = Val (VList l) ->
  In a l ->
  is_dict a = true /\ entry_complete a = true.
Proof.
  intros H Hl Ha.
  destruct (validate_config_ok env cfg cfg' H) as (d & server & l0 & -> & _ & Hl0 & Hall & _).
  simpl in Hl. rewrite Hl0 in Hl. inversion Hl; subst l0.
  rewrite Forall_forall in Hall. exact (Hall a Ha).
Qed.

(** C4, amended. In every configuration [validate_config] accepts, every
    shortcut is a mapping in which the keys [name], [method] and
    [endpoint] are present; the values under them are not looked at. *)
Theorem validate_config_required_keys (env : Env) (cfg cfg' : value)
    (l : list value) (a : value) :
  validate_config env cfg = (Val tt, cfg') ->
  Py.getitem cfg "shortcuts" = Val (VList l) ->
  In a l ->
  exists d, a = VDict d /\
            Py.has_key "name" d = true /\
            Py.has_key "method" d = true /\
            Py.has_key "endpoint" d = true.
Proof.
  intros H Hl Ha.
  destruct (accepted_entries env cfg cfg' l a H Hl Ha) as [Hd Hc].
  destruct a as [ | | | | | d]; try discriminate.
  exists d. split; [reflexivity |].
  unfold entry_complete, required in Hc. simpl in Hc. rewrite !has_dict in Hc.
  destruct (Py.has_key "name" d), (Py.has_key "method" d),
    (Py.has_key "endpoint" d); try discriminate; auto.
Qed.

Lemma validate_config_required_keys_witness :
  exists d, VDict [("name", VStr ""); ("method", VStr ""); ("endpoint", VStr "")]
            = VDict d /\
            Py.has_key "name" d = true /\
            Py.has_key "method" d = true /\
            Py.has_key "endpoint" d = true.
Proof.
  apply (validate_config_required_keys quiet_env blank_config
           (snd (validate_config quiet_env blank_config))
           [VDict [("name", VStr ""); ("method", VStr ""); ("endpoint", VStr "")]]).
  - reflexivity.
  - reflexivity.
  - simpl; auto.
Defined.

(** C4 fails as worded: a shortcut whose three fields are empty strings
    is accepted. *)
Lemma accepted_fields_nonempty_fails : ~ accepted_fields_nonempty.
Proof.
  intros H.
  destruct (H quiet_env blank_config
              (snd (validate_config quiet_env blank_config))
              [VDict [("name", VStr ""); ("method", VStr ""); ("endpoint", VStr "")]]
              (VDict [("name", VStr ""); ("method", VStr ""); ("endpoint", VStr "")])
              "name" eq_refl eq_refl (or_introl eq_refl) (or_introl eq_refl))
    as [v [Hv Hne]].
  simpl in Hv. inversion Hv; subst v. apply Hne. reflexivity.
Qed.

Lemma validate_config_well_shaped (env : Env) (cfg : value) :
  well_shaped cfg = true ->
  (config_violation cfg = false /\
   exists d l, cfg = VDict d /\
     Py.lookup "shortcuts" d = Some (VList l) /\
     validate_config env cfg =
       (Val tt, VDict (Py.store "shortcuts" (VList (List.map with_defaults l)) d)))
  \/
  (config_violation cfg = true /\
   exists msg cfg', validate_config env cfg = (Exc (ConfigError msg), cfg')).
Proof.
  unfold well_shaped, config_violation, validate_config.
  destruct cfg as [ | | | | | d]; try discriminate.
  cbn [is_dict andb Py.contains Py.getitem obind]. rewrite !has_dict.
  unfold Py.has_key.
  destruct (Py.lookup "server" d) as [server |];
    cbn [obind negb andb orb];
    [| intros _; right; split; [reflexivity | eauto]].
  destruct (Py.lookup "shortcuts" d) as [sv |] eqn:Hsv;
    cbn [obind negb andb orb];
    [| intros _; right; split; [reflexivity | eauto]].
  destruct server as [ | | | | | sd]; try discriminate.
  cbn [is_dict andb Py.contains Py.getitem obind]. rewrite !has_dict.
  unfold Py.has_key.
  destruct (Py.lookup "base_url" sd);
    cbn [obind negb andb orb];
    [| intros _; right; split; [reflexivity | eauto]].
  destruct (Py.lookup "token" sd);
    cbn [obind negb andb orb];
    [| intros _; right; split; [reflexivity | eauto]].
  destruct sv as [ | | | | l | ];
    try (intros _; right; split; [reflexivity | eauto]; fail).
  intros Hl.
  destruct (validate_shortcuts_dicts env l Hl) as [[Hall Hv] | [Hall [msg [l' Hv]]]];
    rewrite Hall, Hv; cbn [negb].
  - left. split; [reflexivity |]. exists d, l. auto.
  - right. split; [reflexivity |]. eauto.
Qed.

Lemma main_config_error (env : Env) (args : Namespace) (w : World)
    (cfg cfg' : value) (msg : string) :
  args_stop args = false ->
  args_background args = false ->
  load_config env (args_config args) = Val cfg ->
  validate_config env cfg = (Exc (ConfigError msg), cfg') ->
  main env args w =
    (Val 1, {| trace := trace w ++ [EPrint ("Config error: " ++ msg)];
               pid_file := pid_file w;
               log_file := log_file w |}).
Proof.
  intros Hs Hb Hl Hv. unfold main, load_and_validate.
  rewrite Hs, Hb, Hl. cbn [obind]. rewrite Hv. reflexivity.
Qed.

(** C5, amended. On a configuration that is a mapping whose server and
    shortcut entries are mappings, [validate_config] raises [ConfigError]
    exactly when a top-level key is absent, the server lacks [base_url] or
    [token], [shortcuts] is not a list, or an entry lacks [name], [method]
    or [endpoint]. When it accepts, every entry has received an empty
    mapping for a missing [body] and [None] for a missing [hotkey]; when
    it raises, [main] prints the error and returns 1 and does nothing
    else. *)
Theorem validate_config_all_or_nothing (env : Env) (cfg : value) :
  well_shaped cfg = true ->
  raises_ConfigError (fst (validate_config env cfg)) = config_violation cfg /\
  (config_violation cfg = false ->
   exists d l, cfg = VDict d /\
     Py.lookup "shortcuts" d = Some (VList l) /\
     validate_config env cfg =
       (Val tt, VDict (Py.store "shortcuts" (VList (List.map with_defaults l)) d))) /\
  (config_violation cfg = true ->
   forall (args : Namespace) (w : World),
     args_stop args = false ->
     args_background args = false ->
     load_config env (args_config args) = Val cfg ->
     exists msg,
       main env args w =
         (Val 1, {| trace := trace w ++ [EPrint ("Config error: " ++ msg)];
                    pid_file := pid_file w;
                    log_file := log_file w |})).
Proof.
  intros Hw.
  destruct (validate_config_well_shaped env cfg Hw)
    as [[Hc (d & l & Hd & Hl & Hv)] | [Hc (msg & cfg' & Hv)]]; rewrite Hc, Hv.
  - split; [reflexivity |]. split; [| discriminate].
    intros _. exists d, l. auto.
  - split; [reflexivity |]. split; [discriminate |].
    intros _ args w Hs Hb Hload. exists msg.
    exact (main_config_error env args w cfg cfg' msg Hs Hb Hload Hv).
Qed.

Lemma validate_config_all_or_nothing_witness :
  raises_ConfigError (fst (validate_config quiet_env sample_config))
    = config_violation sample_config /\
  (config_violation sample_config = false ->
   exists d l, sample_config = VDict d /\
     Py.lookup "shortcuts" d = Some (VList l) /\
     validate_config quiet_env sample_config =
       (Val tt, VDict (Py.store "shortcuts" (VList (List.map with_defaults l)) d))) /\
  (config_violation sample_config = true ->
   forall (args : Namespace) (w : World),
     args_stop args = false ->
     args_background args = false ->
     load_config quiet_env (args_config args) = Val sample_config ->
     exists msg,
       main quiet_env args w =
         (Val 1, {| trace := trace w ++ [EPrint ("Config error: " ++ msg)];
                    pid_file := pid_file w;
                    log_file := log_file w |})).
Proof.
  apply (validate_config_all_or_nothing quiet_env sample_config).
  reflexivity.
Defined.

(** C5 fails as worded: a server that is [null] lacks [base_url], and the
    membership test on it raises [TypeError], which is no [ConfigError]. *)
Lemma ConfigError_exactly_on_violation_fails :
  ~ ConfigError_exactly_on_violation.
Proof.
  intros H. specialize (H quiet_env null_server_config).
  vm_compute in H. discriminate.
Qed.

(** *** The background listener *)

(** C3, amended. When [stop_background] reads a pid from the pid file and
    the signal fails with permission denied, it returns 1 and the pid file
    and the log file are removed all the same: the two files are removed
    together on every outcome of the signal, by the [finally] clause. *)
Theorem stop_background_cleanup (env : Env) (w : World) (txt : string) (pid : Z) :
  pid_file w = Some txt ->
  int (PyStr.strip txt) = Val pid ->
  stop_background env w =
    match os_kill env pid SIGTERM with
    | None =>
        (Val 0, stopped w pid [EPrint ("Stopped process " ++ PyStr.of_int pid)])
    | Some ProcessLookupError =>
        (Val 0, stopped w pid
                  [EPrint ("No process " ++ PyStr.of_int pid ++ " found")])
    | Some PermissionError =>
        (Val 1, stopped w pid
                  [EPrint ("Permission denied to stop process " ++ PyStr.of_int pid)])
    | Some e => (Exc e, stopped w pid [])
    end.
Proof.
  intros Hpid Hint. unfold stop_background, stopped. run.
  repeat (rewrite Hpid; run). rewrite Hint. run.
  destruct (os_kill env pid SIGTERM) as [e |]; [destruct e |];
    cbn [is_ProcessLookupError is_PermissionError orb]; run;
    rewrite <- ?app_assoc; reflexivity.
Qed.

Lemma stop_background_cleanup_witness :
  stop_background denied_env running_world =
    (Val 1, stopped running_world 4242
              [EPrint ("Permission denied to stop process " ++ PyStr.of_int 4242)]).
Proof.
  exact (stop_background_cleanup denied_env running_world "4242" 4242
           eq_refl eq_refl).
Defined.

(** C3 fails as worded: after a permission error the pid file is gone. *)
Lemma permission_denied_keeps_pid_file_fails :
  ~ permission_denied_keeps_pid_file.
Proof.
  intros H.
  destruct (H denied_env running_world "4242" 4242 eq_refl eq_refl eq_refl)
    as [_ Hp].
  vm_compute in Hp. discriminate.
Qed.

Lemma int_nonempty (s : string) (z : Z) :
  int s = Val z -> PyStr.is_empty s = false.
Proof. destruct s; [discriminate | reflexivity]. Qed.

(** C8. When the pid file exists and the recorded pid answers the probe,
    [start_background] returns 1 and neither overwrites nor removes the
    pid file; when the pid does not answer, the stale pid file is removed
    before the new listener is spawned. *)
Theorem start_background_guard (env : Env) (args : Namespace) (w : World)
    (txt : string) (pid : Z) :
  pid_file w = Some txt ->
  int (PyStr.strip txt) = Val pid ->
  (os_kill env pid 0 = None ->
   start_background env args w =
     (Val 1,
      {| trace := trace w ++
           [EKill pid 0;
            EPrint ("Already running (pid " ++ PyStr.strip txt
                      ++ "). Stop first with --stop.")];
         pid_file := pid_file w;
         log_file := log_file w |})) /\
  (forall e, os_kill env pid 0 = Some e -> is_OSError e = true ->
   exists rest,
     trace (snd (start_background env args w)) =
       (trace w ++
        [EKill pid 0; EUnlink PID_FILE; EOpenAppend LOG_FILE;
         EOpenAppend LOG_FILE; EPopen (spawn_command env args)] ++ rest)%list).
Proof.
  intros Hpid Hint.
  pose proof (int_nonempty _ _ Hint) as Hne.
  split.
  - intros Hk. unfold start_background, _is_running. run.
    repeat (rewrite Hpid; run). rewrite Hne, Hint. run. rewrite Hk. run.
    rewrite <- !app_assoc, ?Hpid. reflexivity.
  - intros e Hk He. unfold start_background, _is_running. run.
    repeat (rewrite Hpid; run). rewrite Hne, Hint. run. rewrite Hk. run.
    rewrite He. run. fold (spawn_command env args).
    destruct (Popen env (spawn_command env args)) as [child | e'].
    + eexists. run. rewrite <- !app_assoc. reflexivity.
    + destruct (is_Exception e'); eexists; run; rewrite <- !app_assoc;
        reflexivity.
Qed.

Lemma start_background_guard_witness :
  start_background quiet_env (sample_args false None) running_world =
    (Val 1,
     {| trace := [EKill 4242 0;
                  EPrint "Already running (pid 4242). Stop first with --stop."];
        pid_file := Some "4242";
        log_file := true |}) /\
  exists rest,
    trace (snd (start_background denied_env (sample_args false None) running_world)) =
      ([EKill 4242 0; EUnlink PID_FILE; EOpenAppend LOG_FILE;
        EOpenAppend LOG_FILE;
        EPopen (spawn_command denied_env (sample_args false None))] ++ rest)%list.
Proof.
  split.
  - exact (proj1 (start_background_guard quiet_env (sample_args false None)
                    running_world "4242" 4242 eq_refl eq_refl) eq_refl).
  - exact (proj2 (start_background_guard denied_env (sample_args false None)
                    running_world "4242" 4242 eq_refl eq_refl)
             PermissionError eq_refl eq_refl).
Defined.

(** *** The command line *)

Lemma emit_all_nil (w : World) : emit_all [] w = w.
Proof. destruct w; unfold emit_all; simpl. now rewrite app_nil_r. Qed.

Lemma emit_all_app (es1 es2 : list event) (w : World) :
  emit_all es2 (emit_all es1 w) = emit_all (es1 ++ es2) w.
Proof. unfold emit_all; simpl. now rewrite app_assoc. Qed.

Lemma lookup_app (k : string) (d d' : list (string * value)) :
  Py.has_key k d = true -> Py.lookup k (d ++ d') = Py.lookup k d.
Proof.
  unfold Py.has_key.
  induction d as [| [k' v] rest IH]; simpl; [discriminate |].
  destruct (String.eqb k k'); [reflexivity | exact IH].
Qed.

Lemma has_key_app (k : string) (d d' : list (string * value)) :
  Py.has_key k d = true -> Py.has_key k (d ++ d') = true.
Proof.
  intros H. unfold Py.has_key. rewrite (lookup_app k d d' H). exact H.
Qed.

Lemma with_defaults_valid (a : value) :
  valid_entry a = true -> valid_entry (with_defaults a) = true.
Proof.
  unfold valid_entry, entry_complete, required.
  destruct a as [ | | | | | d]; try discriminate.
  cbn [is_dict andb forallb with_defaults]. rewrite !has_dict, !andb_true_r.
  intros H. apply andb_true_iff in H. destruct H as [Hn H].
  apply andb_true_iff in H. destruct H as [Hm He].
  assert (K : forall k d0 x (c : bool),
             Py.has_key k d0 = true ->
             Py.has_key k (if c then d0 else (d0 ++ x)%list) = true).
  { intros k d0 x c Hk. destruct c; [exact Hk | now apply has_key_app]. }
  rewrite !K; auto.
Qed.

(** Past [load_config] and [validate_config] the configuration is a
    mapping with a server and a list of shortcuts that are mappings with
    the three required keys. *)
Lemma load_and_validate_ok (env : Env) (path : Path) (cfg : value) :
  load_and_validate env path = Val cfg ->
  exists server l,
    Py.getitem cfg "server" = Val server /\
    Py.getitem cfg "shortcuts" = Val (VList l) /\
    forallb valid_entry l = true.
Proof.
  unfold load_and_validate. destruct (load_config env path) as [raw | e];
    cbn [obind]; [| discriminate].
  destruct (validate_config env raw) as [[[] | e] cfg'] eqn:Hv; [| discriminate].
  intros H; inversion H; subst cfg'; clear H.
  destruct (validate_config_ok env raw cfg Hv)
    as (d & server & l & -> & Hs & Hl & Hall & ->).
  exists server, (List.map with_defaults l).
  cbn [Py.getitem].
  rewrite lookup_store_other by reflexivity. rewrite Hs.
  rewrite lookup_store_same by (unfold Py.has_key; now rewrite Hl).
  split; [reflexivity |]. split; [reflexivity |].
  rewrite forallb_forall. intros a Ha. apply in_map_iff in Ha.
  destruct Ha as [a0 [<- Ha0]]. apply with_defaults_valid.
  rewrite Forall_forall in Hall. destruct (Hall a0 Ha0) as [Hd Hc].
  unfold valid_entry. now rewrite Hd, Hc.
Qed.

Lemma valid_entry_dict (a : value) :
  valid_entry a = true ->
  exists d n m e,
    a = VDict d /\ Py.lookup "name" d = Some n /\
    Py.lookup "method" d = Some m /\ Py.lookup "endpoint" d = Some e.
Proof.
  unfold valid_entry, entry_complete, required.
  destruct a as [ | | | | | d]; try discriminate.
  cbn [is_dict andb forallb]. rewrite !has_dict, !andb_true_r.
  intros H. apply andb_true_iff in H. destruct H as [Hn H].
  apply andb_true_iff in H. destruct H as [Hm He].
  apply has_key_lookup in Hn, Hm, He.
  destruct Hn as [n Hn], Hm as [m Hm], He as [e He].
  exists d, n, m, e. auto.
Qed.

Lemma format_action_valid (env : Env) (a : value) :
  valid_entry a = true -> format_action env a = Val (listing_line env a).
Proof.
  intros H. destruct (valid_entry_dict a H) as (d & n & m & e & -> & Hn & Hm & He).
  unfold format_action, listing_line, field, hotkey_text, Py.or_.
  cbn [Py.get Py.getitem obind]. rewrite Hn, Hm, He. cbn [obind].
  destruct (Py.lookup "hotkey" d) as [h |]; cbn [obind Py.truthy];
    [destruct (Py.truthy h) |]; reflexivity.
Qed.

Lemma print_actions_valid (env : Env) (l : list value) (w : World) :
  forallb valid_entry l = true ->
  print_actions env l w =
    (Val tt,
     emit_all (List.map (fun a => EPrint (" - " ++ listing_line env a)) l) w).
Proof.
  revert w. induction l as [| a rest IH]; intros w H; cbn [print_actions List.map].
  - unfold ret. now rewrite emit_all_nil.
  - cbn [forallb] in H. apply andb_true_iff in H. destruct H as [Ha Hrest].
    rewrite (format_action_valid env a Ha). run.
    rewrite (IH _ Hrest). unfold emit_all; cbn [trace pid_file log_file].
    now rewrite <- app_assoc.
Qed.

Lemma matches_of_valid (name : string) (l : list value) :
  forallb valid_entry l = true ->
  matches_of name l = Val (filter (named name) l).
Proof.
  induction l as [| a rest IH]; intros H; cbn [matches_of filter];
    [reflexivity |].
  cbn [forallb] in H. apply andb_true_iff in H. destruct H as [Ha Hrest].
  destruct (valid_entry_dict a Ha) as (d & n & m & e & -> & Hn & _).
  rewrite (IH Hrest). unfold named. cbn [Py.get obind]. rewrite Hn.
  cbn [obind]. reflexivity.
Qed.

Lemma getitem_Exception (v : value) (k : string) (e : exn) :
  Py.getitem v k = Exc e -> is_Exception e = true.
Proof.
  destruct v; simpl; try (intros H; inversion H; reflexivity).
  destruct (Py.lookup k d); intros H; inversion H; reflexivity.
Qed.

Lemma get_Exception (v : value) (k : string) (x : value) (e : exn) :
  Py.get v k x = Exc e -> is_Exception e = true.
Proof.
  destruct v; simpl; try (intros H; inversion H; reflexivity).
  destruct (Py.lookup k d); discriminate.
Qed.

(** Whatever keeps the request from being built is caught by the
    [except Exception] of [trigger_action]. *)
Lemma build_request_Exception (env : Env) (server a : value) (e : exn) :
  build_request env server a = Exc e -> is_Exception e = true.
Proof.
  unfold build_request. intros H.
  destruct (Py.getitem server "base_url") as [b |] eqn:E1; cbn [obind] in H;
    [| inversion H; subst; eapply getitem_Exception; eassumption].
  destruct (rstrip_slash b) as [stripped |] eqn:E2; cbn [obind] in H;
    [| inversion H; subst; destruct b; inversion E2; reflexivity].
  destruct (Py.getitem a "endpoint") as [ep |] eqn:E3; cbn [obind] in H;
    [| inversion H; subst; eapply getitem_Exception; eassumption].
  destruct (str_add stripped ep) as [url |] eqn:E4; cbn [obind] in H;
    [| inversion H; subst; destruct ep; inversion E4; reflexivity].
  destruct (Py.getitem a "method") as [m |] eqn:E5; cbn [obind] in H;
    [| inversion H; subst; eapply getitem_Exception; eassumption].
  destruct (upper m) as [method |] eqn:E6; cbn [obind] in H;
    [| inversion H; subst; destruct m; inversion E6; reflexivity].
  destruct (Py.get a "body" (VDict [])) as [body |] eqn:E7; cbn [obind] in H;
    [| inversion H; subst; eapply get_Exception; eassumption].
  destruct (Py.getitem server "token") as [tok |] eqn:E8; cbn [obind] in H;
    [discriminate | inversion H; subst; eapply getitem_Exception; eassumption].
Qed.

(** On a validated shortcut [trigger_action] returns, whatever the
    server or the transport does. *)
Lemma trigger_action_valid (env : Env) (server a : value) (source : string)
    (w : World) :
  valid_entry a = true ->
  trigger_action env server a source w =
    (Val tt, emit_all (trigger_events env server a source) w).
Proof.
  intros H. destruct (valid_entry_dict a H) as (d & n & m & e & -> & Hn & Hm & He).
  unfold trigger_action, send_request, trigger_events, triggering_line,
    status_line, error_line, response_lines, reported_word, field, emit_all.
  cbn [Py.getitem]. rewrite Hn, Hm, He. run.
  destruct (build_request env server (VDict d)) as [q | x] eqn:Hq; run.
  - destruct (requests_request env q) as [r | msg]; run.
    + cbn [res_ok res_status res_elapsed_ms res_text].
      destruct (PyStr.is_empty (text r)); run; rewrite <- ?app_assoc;
        cbn [app]; reflexivity.
    + cbn [is_Exception]. run. rewrite <- ?app_assoc. reflexivity.
  - rewrite (build_request_Exception env server (VDict d) x Hq). run.
    rewrite <- ?app_assoc. reflexivity.
Qed.

Lemma listing_run (env : Env) (flag : bool) (l : list value) (w : World) :
  forallb valid_entry l = true ->
  (if flag
   then print "Configured shortcuts:" ;; print_actions env l
   else ret tt) w
  = (Val tt, emit_all (listing_events env flag l) w).
Proof.
  intros Hvalid. unfold listing_events. destruct flag.
  - run. rewrite print_actions_valid by exact Hvalid.
    unfold emit_all; cbn [trace pid_file log_file].
    now rewrite <- app_assoc.
  - unfold ret. now rewrite emit_all_nil.
Qed.

(** [main] with [--trigger NAME] on a validated configuration. *)
Lemma main_trigger (env : Env) (args : Namespace) (w : World)
    (cfg server : value) (l : list value) (name : string) :
  args_stop args = false ->
  args_background args = false ->
  load_and_validate env (args_config args) = Val cfg ->
  Py.getitem cfg "server" = Val server ->
  Py.getitem cfg "shortcuts" = Val (VList l) ->
  forallb valid_entry l = true ->
  args_trigger args = Some name ->
  PyStr.is_empty name = false ->
  main env args w =
    match filter (named name) l with
    | [] =>
        (Val 1,
         emit_all (listing_events env (args_list args) l
                     ++ [EPrint ("No shortcut named '" ++ name ++ "'")]) w)
    | first :: _ =>
        (Val 0,
         emit_all (listing_events env (args_list args) l
                     ++ trigger_events env server first "cli") w)
    end.
Proof.
  intros Hs Hb Hload Hserver Hl Hvalid Ht Hne.
  pose proof (listing_run env (args_list args) l w Hvalid) as Hlist.
  unfold main. rewrite Hs, Hb, Hload, Ht.
  unfold given. rewrite Hne. cbn [negb].
  unfold bind at 1. unfold lift at 1. rewrite Hserver.
  unfold bind at 1. unfold lift at 1. rewrite Hl.
  unfold bind at 1. unfold lift at 1. cbn [as_list].
  unfold bind at 1. rewrite Hlist.
  unfold bind at 1. unfold lift at 1.
  rewrite (matches_of_valid name l Hvalid).
  destruct (filter (named name) l) as [| first rest] eqn:Hf.
  - run. unfold emit_all; cbn [trace pid_file log_file].
    now rewrite <- app_assoc.
  - assert (Hfirst : valid_entry first = true).
    { assert (Hin : In first (filter (named name) l)) by (rewrite Hf; now left).
      apply filter_In in Hin. destruct Hin as [Hin _].
      rewrite forallb_forall in Hvalid. now apply Hvalid. }
    unfold bind at 1. rewrite (trigger_action_valid env server first "cli" _ Hfirst).
    rewrite emit_all_app. reflexivity.
Qed.

Lemma http_calls_app (t1 t2 : list event) :
  http_calls (t1 ++ t2) = (http_calls t1 ++ http_calls t2)%list.
Proof.
  induction t1 as [| e t1 IH]; [reflexivity |].
  destruct e; simpl; rewrite IH; reflexivity.
Qed.

Lemma printed_app (t1 t2 : list event) :
  printed (t1 ++ t2) = (printed t1 ++ printed t2)%list.
Proof.
  induction t1 as [| e t1 IH]; [reflexivity |].
  destruct e; simpl; rewrite IH; reflexivity.
Qed.

Lemma http_calls_listing (env : Env) (flag : bool) (l : list value) :
  http_calls (listing_events env flag l) = [].
Proof.
  unfold listing_events. destruct flag; [| reflexivity]. simpl.
  induction l as [| a rest IH]; [reflexivity | exact IH].
Qed.

Lemma http_calls_trigger (env : Env) (server a : value) (source : string) :
  http_calls (trigger_events env server a source) =
    match build_request env server a with
    | Val q => [q]
    | Exc _ => []
    end.
Proof.
  unfold trigger_events, response_lines.
  destruct (build_request env server a) as [q | e]; [| reflexivity].
  destruct (requests_request env q) as [r | msg]; [| reflexivity].
  destruct (PyStr.is_empty (text r)); reflexivity.
Qed.

(** C7, amended. On every valid configuration and for every name that is
    not the empty string: when no shortcut has the name, [main] prints
    the error, returns 1 and issues no HTTP call; when some do, the first
    of them in the order of the file is fired, once, and [main] returns
    0. *)
Theorem trigger_by_name (env : Env) (args : Namespace) (w : World)
    (cfg : value) (name : string) :
  args_stop args = false ->
  args_background args = false ->
  load_and_validate env (args_config args) = Val cfg ->
  args_trigger args = Some name ->
  name <> "" ->
  exists server l,
    Py.getitem cfg "server" = Val server /\
    Py.getitem cfg "shortcuts" = Val (VList l) /\
    match filter (named name) l with
    | [] =>
        fst (main env args w) = Val 1 /\
        (exists before,
            printed (trace (snd (main env args w))) =
              (before ++ [("No shortcut named '" ++ name ++ "'")%string])%list) /\
        http_calls (trace (snd (main env args w))) = http_calls (trace w)
    | first :: _ =>
        fst (main env args w) = Val 0 /\
        snd (main env args w) =
          snd (trigger_action env server first "cli"
                 (emit_all (listing_events env (args_list args) l) w)) /\
        http_calls (trace (snd (main env args w))) =
          (http_calls (trace w) ++
           match build_request env server first with
           | Val q => [q]
           | Exc _ => []
           end)%list
    end.
Proof.
  intros Hs Hb Hload Ht Hname.
  destruct (load_and_validate_ok env _ cfg Hload) as (server & l & Hserver & Hl & Hvalid).
  exists server, l. split; [exact Hserver |]. split; [exact Hl |].
  assert (Hne : PyStr.is_empty name = false) by (destruct name; [congruence | reflexivity]).
  pose proof (main_trigger env args w cfg server l name
                Hs Hb Hload Hserver Hl Hvalid Ht Hne) as Hmain.
  destruct (filter (named name) l) as [| first rest] eqn:Hf; rewrite Hmain.
  - cbn [fst snd emit_all trace]. split; [reflexivity |]. split.
    + exists (printed (trace w) ++ printed (listing_events env (args_list args) l))%list.
      rewrite !printed_app. cbn [printed]. now rewrite app_assoc.
    + rewrite !http_calls_app, http_calls_listing. cbn [http_calls app].
      now rewrite app_nil_r.
  - assert (Hfirst : valid_entry first = true).
    { assert (Hin : In first (filter (named name) l)) by (rewrite Hf; now left).
      apply filter_In in Hin. destruct Hin as [Hin _].
      rewrite forallb_forall in Hvalid. now apply Hvalid. }
    rewrite (trigger_action_valid env server first "cli" _ Hfirst).
    cbn [fst snd emit_all trace]. split; [reflexivity |]. split.
    + unfold emit_all; cbn [trace pid_file log_file]. now rewrite app_assoc.
    + rewrite !http_calls_app, http_calls_listing, http_calls_trigger.
      reflexivity.
Qed.

Lemma trigger_by_name_witness :
  exists server l,
    Py.getitem sample_config "server" = Val server /\
    Py.getitem sample_config "shortcuts" = Val (VList l) /\
    match filter (named "table_led") l with
    | [] =>
        fst (main quiet_env (sample_args false (Some "table_led")) empty_world)
          = Val 1 /\
        (exists before,
            printed (trace (snd (main quiet_env
                                   (sample_args false (Some "table_led"))
                                   empty_world))) =
              (before ++ [("No shortcut named '" ++ "table_led" ++ "'")%string])%list) /\
        http_calls (trace (snd (main quiet_env
                                  (sample_args false (Some "table_led"))
                                  empty_world)))
          = http_calls (trace empty_world)
    | first :: _ =>
        fst (main quiet_env (sample_args false (Some "table_led")) empty_world)
          = Val 0 /\
        snd (main quiet_env (sample_args false (Some "table_led")) empty_world) =
          snd (trigger_action quiet_env server first "cli"
                 (emit_all (listing_events quiet_env false l) empty_world)) /\
        http_calls (trace (snd (main quiet_env
                                  (sample_args false (Some "table_led"))
                                  empty_world))) =
          (http_calls (trace empty_world) ++
           match build_request quiet_env server first with
           | Val q => [q]
           | Exc _ => []
           end)%list
    end.
Proof.
  apply (trigger_by_name quiet_env (sample_args false (Some "table_led"))
           empty_world sample_config "table_led").
  - reflexivity.
  - reflexivity.
  - reflexivity.
  - reflexivity.
  - discriminate.
Defined.

(** C7 fails as worded: the empty name matches no shortcut, and [main]
    takes it for no [--trigger] at all and starts listening. *)
Lemma trigger_claim_fails : ~ trigger_claim.
Proof.
  intros H.
  pose proof (H quiet_env (sample_args false (Some "")) empty_world
                sample_config sample_server [sample_action] ""
                eq_refl eq_refl eq_refl eq_refl eq_refl eq_refl) as K.
  vm_compute in K. destruct K as [K _]. discriminate K.
Qed.

(** *** The reported status *)

(** C2, amended. When a configured shortcut is triggered and the server
    answers, the status line says [ok] exactly when the response's [ok]
    attribute is true, and [fail] otherwise; [main] returns 0 in both
    cases. With the [ok] of the requests library that is every status
    code outside 400..599: the 2xx codes, and also codes such as 304. *)
Theorem trigger_reports_ok_flag (env : Env) (args : Namespace) (w : World)
    (cfg server : value) (l : list value) (name : string) (first : value)
    (rest : list value) (q : HttpRequest) (r : Response) :
  args_stop args = false ->
  args_background args = false ->
  load_and_validate env (args_config args) = Val cfg ->
  args_trigger args = Some name ->
  name <> "" ->
  Py.getitem cfg "server" = Val server ->
  Py.getitem cfg "shortcuts" = Val (VList l) ->
  filter (named name) l = first :: rest ->
  build_request env server first = Val q ->
  requests_request env q = inl r ->
  main env args w =
    (Val 0,
     emit_all (listing_events env (args_list args) l
                 ++ [EPrint (triggering_line env "cli" first);
                     ERequest q;
                     EPrint (status_line env "cli" first (reported_word r)
                               (status_code r) (elapsed_ms env q))]
                 ++ response_lines "cli" r) w) /\
  (reported_word r = "ok" <-> ok r = true) /\
  (reported_word r = "fail" <-> ok r = false) /\
  (ok r = requests_ok (status_code r) ->
   (reported_word r = "ok" <-> ~ (400 <= status_code r < 600)%Z)).
Proof.
  intros Hs Hb Hload Ht Hname Hserver Hl Hf Hq Hr.
  destruct (load_and_validate_ok env _ cfg Hload)
    as (server' & l' & Hserver' & Hl' & Hvalid).
  rewrite Hserver in Hserver'. rewrite Hl in Hl'.
  inversion Hserver'; inversion Hl'; subst server' l'.
  assert (Hne : PyStr.is_empty name = false)
    by (destruct name; [congruence | reflexivity]).
  assert (Hword : reported_word r = "ok" <-> ok r = true).
  { unfold reported_word. destruct (ok r); split; auto; discriminate. }
  split; [| split; [exact Hword | split]].
  - rewrite (main_trigger env args w cfg server l name
               Hs Hb Hload Hserver Hl Hvalid Ht Hne).
    rewrite Hf. unfold trigger_events. rewrite Hq, Hr. reflexivity.
  - unfold reported_word. destruct (ok r); split; auto; discriminate.
  - intros Hok. rewrite Hword, Hok. unfold requests_ok.
    destruct (Z.leb_spec 400 (status_code r)), (Z.ltb_spec (status_code r) 600);
      cbn [andb negb]; split; intros; try lia; try discriminate; reflexivity.
Qed.

Lemma trigger_reports_ok_flag_witness :
  main not_modified_env (sample_args false (Some "table_led")) empty_world =
    (Val 0,
     emit_all
       (listing_events not_modified_env false [sample_action]
          ++ [EPrint (triggering_line not_modified_env "cli" sample_action);
              ERequest {| req_method := "POST";
                          req_url := "http://ha.local:8123/api/services/light/toggle";
                          req_headers := [("Authorization", "Bearer secret");
                                          ("Content-Type", "application/json")];
                          req_json := VDict [("entity_id", VStr "light.table")];
                          req_timeout := 15 |};
              EPrint (status_line not_modified_env "cli" sample_action
                        (reported_word (sample_response 304)) 304 12)]
          ++ response_lines "cli" (sample_response 304)) empty_world) /\
  (reported_word (sample_response 304) = "ok" <-> ok (sample_response 304) = true) /\
  (reported_word (sample_response 304) = "fail"
   <-> ok (sample_response 304) = false) /\
  (ok (sample_response 304) = requests_ok (status_code (sample_response 304)) ->
   (reported_word (sample_response 304) = "ok"
    <-> ~ (400 <= status_code (sample_response 304) < 600)%Z)).
Proof.
  apply (trigger_reports_ok_flag not_modified_env
           (sample_args false (Some "table_led")) empty_world
           sample_config sample_server [sample_action] "table_led"
           sample_action []).
  - reflexivity.
  - reflexivity.
  - reflexivity.
  - reflexivity.
  - discriminate.
  - reflexivity.
  - reflexivity.
  - reflexivity.
  - reflexivity.
  - reflexivity.
Defined.

(** C2 fails as worded: a response with status 304 is no 2xx response,
    and its line says [ok]. *)
Lemma ok_only_on_2xx_fails : ~ ok_only_on_2xx.
Proof.
  intros H.
  pose proof (H not_modified_env (sample_args false (Some "table_led"))
                empty_world sample_config sample_server [sample_action]
                "table_led" sample_action []
                {| req_method := "POST";
                   req_url := "http://ha.local:8123/api/services/light/toggle";
                   req_headers := [("Authorization", "Bearer secret");
                                   ("Content-Type", "application/json")];
                   req_json := VDict [("entity_id", VStr "light.table")];
                   req_timeout := 15 |}
                (sample_response 304)) as K.
  assert (Hname : "table_led" <> "") by discriminate.
  specialize (K eq_refl eq_refl eq_refl eq_refl Hname eq_refl eq_refl eq_refl
                eq_refl eq_refl eq_refl).
  vm_compute in K.
  repeat (destruct K as [K | K]; [discriminate K |]). exact K.
Qed.

(** *** Listing *)

Lemma main_list (env : Env) (args : Namespace) (w : World)
    (cfg server : value) (l : list value) :
  args_stop args = false ->
  args_background args = false ->
  load_and_validate env (args_config args) = Val cfg ->
  Py.getitem cfg "server" = Val server ->
  Py.getitem cfg "shortcuts" = Val (VList l) ->
  forallb valid_entry l = true ->
  args_list args = true ->
  given (args_trigger args) = false ->
  args_listen args = false ->
  main env args w = (Val 0, emit_all (listing_events env true l) w).
Proof.
  intros Hs Hb Hload Hserver Hl Hvalid Hlist Hg Hlisten.
  pose proof (listing_run env true l w Hvalid) as Hrun.
  unfold main. rewrite Hs, Hb, Hload, Hg, Hlist, Hlisten.
  unfold bind at 1. unfold lift at 1. rewrite Hserver.
  unfold bind at 1. unfold lift at 1. rewrite Hl.
  unfold bind at 1. unfold lift at 1. cbn [as_list].
  unfold bind at 1. rewrite Hrun. reflexivity.
Qed.

(** C9, amended. On every valid configuration, listing prints the heading
    [Configured shortcuts:] and then one line for each shortcut, in the
    order of the file; the line is the bullet [ - ] followed by
    [NAME -> METHOD ENDPOINT HOTKEY], with [(no hotkey)] in the place of a
    hotkey that is absent. *)
Theorem list_output (env : Env) (args : Namespace) (w : World) (cfg : value) :
  args_stop args = false ->
  args_background args = false ->
  load_and_validate env (args_config args) = Val cfg ->
  args_list args = true ->
  given (args_trigger args) = false ->
  args_listen args = false ->
  exists l,
    Py.getitem cfg "shortcuts" = Val (VList l) /\
    main env args w =
      (Val 0,
       emit_all
         (EPrint "Configured shortcuts:"
            :: List.map (fun a => EPrint (" - " ++ listing_line env a)) l) w) /\
    forall a, In a l ->
      listing_line env a =
        field env "name" a ++ " -> " ++ field env "method" a ++ " "
          ++ field env "endpoint" a ++ " " ++ hotkey_text env a /\
      (forall k s, Py.getitem a k = Val (VStr s) -> field env k a = s) /\
      (Py.get a "hotkey" VNone = Val VNone -> hotkey_text env a = "(no hotkey)") /\
      (forall h, Py.get a "hotkey" VNone = Val (VStr h) -> h <> "" ->
                 hotkey_text env a = h).
Proof.
  intros Hs Hb Hload Hlist Hg Hlisten.
  destruct (load_and_validate_ok env _ cfg Hload) as (server & l & Hserver & Hl & Hvalid).
  exists l. split; [exact Hl |]. split.
  - exact (main_list env args w cfg server l Hs Hb Hload Hserver Hl Hvalid
             Hlist Hg Hlisten).
  - intros a _. split; [reflexivity |]. split; [| split].
    + intros k s Hk. unfold field. now rewrite Hk.
    + intros Hh. unfold hotkey_text. now rewrite Hh.
    + intros h Hh Hne. unfold hotkey_text. rewrite Hh.
      destruct h; [congruence | reflexivity].
Qed.

Lemma list_output_witness :
  exists l,
    Py.getitem sample_config "shortcuts" = Val (VList l) /\
    main quiet_env (sample_args true None) empty_world =
      (Val 0,
       emit_all
         (EPrint "Configured shortcuts:"
            :: List.map (fun a => EPrint (" - " ++ listing_line quiet_env a)) l)
         empty_world) /\
    forall a, In a l ->
      listing_line quiet_env a =
        field quiet_env "name" a ++ " -> " ++ field quiet_env "method" a ++ " "
          ++ field quiet_env "endpoint" a ++ " " ++ hotkey_text quiet_env a /\
      (forall k s, Py.getitem a k = Val (VStr s) -> field quiet_env k a = s) /\
      (Py.get a "hotkey" VNone = Val VNone ->
       hotkey_text quiet_env a = "(no hotkey)") /\
      (forall h, Py.get a "hotkey" VNone = Val (VStr h) -> h <> "" ->
                 hotkey_text quiet_env a = h).
Proof.
  apply (list_output quiet_env (sample_args true None) empty_world sample_config);
    reflexivity.
Defined.

(** C9 fails as worded: the output starts with a heading, and every
    line of a shortcut starts with a bullet. *)
Lemma list_prints_bare_lines_fails : ~ list_prints_bare_lines.
Proof.
  intros H.
  pose proof (H quiet_env (sample_args true None) empty_world sample_config
                [sample_action] eq_refl eq_refl eq_refl eq_refl eq_refl
                eq_refl eq_refl) as K.
  vm_compute in K. discriminate K.
Qed.

(** *** Shortcuts without a hotkey *)

Lemma bind_ext {A B : Type} (c : M A) (f g : A -> M B) (w : World) :
  (forall a w', f a w' = g a w') -> bind c f w = bind c g w.
Proof.
  intros H. unfold bind. destruct (c w) as [[a | e] w']; [apply H | reflexivity].
Qed.

(** A shortcut whose hotkey is false (absent, [None], the empty string)
    leaves no trace in the registration loop of either backend. *)
Lemma keyboard_register_skip (env : Env) (server a : value) (h : value)
    (pre post : list value) (w : World) :
  Py.get a "hotkey" VNone = Val h ->
  Py.truthy h = false ->
  keyboard_register env server (pre ++ a :: post) w =
  keyboard_register env server (pre ++ post) w.
Proof.
  intros Hget Hfalse. revert w.
  induction pre as [| x pre IH]; intros w; cbn [app keyboard_register].
  - unfold bind at 1. unfold lift at 1. rewrite Hget, Hfalse. reflexivity.
  - apply bind_ext. intros hx w1.
    destruct (negb (Py.truthy hx)); [apply IH |].
    do 3 (apply bind_ext; intros). apply IH.
Qed.

Lemma pynput_register_skip (env : Env) (server a : value) (h : value)
    (pre post : list value) (w : World) :
  Py.get a "hotkey" VNone = Val h ->
  Py.truthy h = false ->
  pynput_register env server (pre ++ a :: post) w =
  pynput_register env server (pre ++ post) w.
Proof.
  intros Hget Hfalse. revert w.
  induction pre as [| x pre IH]; intros w; cbn [app pynput_register].
  - unfold bind at 1. unfold lift at 1. rewrite Hget, Hfalse. reflexivity.
  - apply bind_ext. intros hx w1.
    destruct (negb (Py.truthy hx)); [apply IH |].
    apply bind_ext. intros combo w2.
    destruct (HotKey_parse env combo); [reflexivity |].
    do 3 (apply bind_ext; intros). apply IH.
Qed.

Lemma lookup_store_hotkey (k : string) (d : list (string * value)) :
  String.eqb k "hotkey" = false ->
  Py.getitem (VDict (Py.store "hotkey" VNone d)) k = Py.getitem (VDict d) k.
Proof.
  intros Hk. cbn [Py.getitem]. now rewrite lookup_store_other.
Qed.

(** C10. A shortcut whose hotkey is the empty string is treated like one
    without a hotkey: the listing puts [(no hotkey)] in its line, the same
    line as with the hotkey set to [None], and the registration of both
    backends passes over it, as it passes over the shortcut with the
    hotkey set to [None], without a call to the hotkey library and
    without a printed line. *)
Theorem empty_hotkey_is_no_hotkey (env : Env) (server : value)
    (d : list (string * value)) :
  Py.lookup "hotkey" d = Some (VStr "") ->
  let a := VDict d in
  let a' := VDict (Py.store "hotkey" VNone d) in
  hotkey_text env a = "(no hotkey)" /\
  hotkey_text env a' = "(no hotkey)" /\
  format_action env a = format_action env a' /\
  (valid_entry a = true ->
   format_action env a =
     Val (field env "name" a ++ " -> " ++ field env "method" a ++ " "
            ++ field env "endpoint" a ++ " (no hotkey)")) /\
  forall (pre post : list value) (w : World),
    keyboard_register env server (pre ++ a :: post) w =
      keyboard_register env server (pre ++ post) w /\
    keyboard_register env server (pre ++ a' :: post) w =
      keyboard_register env server (pre ++ post) w /\
    listen_with_keyboard env server (pre ++ a :: post) w =
      listen_with_keyboard env server (pre ++ post) w /\
    pynput_register env server (pre ++ a :: post) w =
      pynput_register env server (pre ++ post) w /\
    pynput_register env server (pre ++ a' :: post) w =
      pynput_register env server (pre ++ post) w /\
    listen_with_pynput env server (pre ++ a :: post) w =
      listen_with_pynput env server (pre ++ post) w.
Proof.
  intros Hh a a'.
  assert (Hk : Py.has_key "hotkey" d = true)
    by (unfold Py.has_key; now rewrite Hh).
  assert (Hget : Py.get a "hotkey" VNone = Val (VStr ""))
    by (unfold a; cbn [Py.get]; now rewrite Hh).
  assert (Hget' : Py.get a' "hotkey" VNone = Val VNone)
    by (unfold a'; cbn [Py.get]; now rewrite (lookup_store_same _ _ _ Hk)).
  assert (Htext : hotkey_text env a = "(no hotkey)")
    by (unfold hotkey_text; now rewrite Hget).
  split; [exact Htext |].
  split; [unfold hotkey_text; now rewrite Hget' |].
  split; [| split].
  - unfold format_action. rewrite Hget, Hget'. cbn [obind].
    unfold a'. rewrite !lookup_store_hotkey by reflexivity. reflexivity.
  - intros Hv. rewrite (format_action_valid env a Hv).
    unfold listing_line. now rewrite Htext.
  - intros pre post w.
    pose proof (keyboard_register_skip env server a _ pre post w Hget eq_refl) as K1.
    pose proof (keyboard_register_skip env server a' _ pre post w Hget' eq_refl) as K2.
    pose proof (pynput_register_skip env server a _ pre post w Hget eq_refl) as P1.
    pose proof (pynput_register_skip env server a' _ pre post w Hget' eq_refl) as P2.
    repeat split; try assumption.
    + unfold listen_with_keyboard. destruct (negb (keyboard env)); [reflexivity |].
      unfold bind at 1. unfold bind at 3.
      now rewrite (keyboard_register_skip env server a _ pre post w Hget eq_refl).
    + unfold listen_with_pynput.
      destruct (negb (pynput_keyboard env)); [reflexivity |].
      unfold bind at 1. unfold bind at 3.
      now rewrite (pynput_register_skip env server a _ pre post w Hget eq_refl).
Qed.

Lemma empty_hotkey_is_no_hotkey_witness :
  let a := VDict unbound_entry in
  let a' := VDict (Py.store "hotkey" VNone unbound_entry) in
  hotkey_text quiet_env a = "(no hotkey)" /\
  hotkey_text quiet_env a' = "(no hotkey)" /\
  format_action quiet_env a = format_action quiet_env a' /\
  (valid_entry a = true ->
   format_action quiet_env a =
     Val (field quiet_env "name" a ++ " -> " ++ field quiet_env "method" a ++ " "
            ++ field quiet_env "endpoint" a ++ " (no hotkey)")) /\
  forall (pre post : list value) (w : World),
    keyboard_register quiet_env sample_server (pre ++ a :: post) w =
      keyboard_register quiet_env sample_server (pre ++ post) w /\
    keyboard_register quiet_env sample_server (pre ++ a' :: post) w =
      keyboard_register quiet_env sample_server (pre ++ post) w /\
    listen_with_keyboard quiet_env sample_server (pre ++ a :: post) w =
      listen_with_keyboard quiet_env sample_server (pre ++ post) w /\
    pynput_register quiet_env sample_server (pre ++ a :: post) w =
      pynput_register quiet_env sample_server (pre ++ post) w /\
    pynput_register quiet_env sample_server (pre ++ a' :: post) w =
      pynput_register quiet_env sample_server (pre ++ post) w /\
    listen_with_pynput quiet_env sample_server (pre ++ a :: post) w =
      listen_with_pynput quiet_env sample_server (pre ++ post) w.
Proof.
  apply (empty_hotkey_is_no_hotkey quiet_env sample_server unbound_entry).
  reflexivity.
Defined.

(** ** Further properties *)

(** *** Decimal numerals: [int(str(n))] *)

Lemma digits_string_of_uint (d : Decimal.uint) (acc : Z) (b : bool) :
  PyStr.digits acc b (NilEmpty.string_of_uint d) =
    match d with
    | Decimal.Nil => if b then Some acc else None
    | _ => Some (uint_value d acc)
    end.
Proof.
  revert acc b.
  induction d; intros acc b; try reflexivity;
    cbn [NilEmpty.string_of_uint PyStr.digits uint_value];
    match goal with
    | |- (if PyStr.is_digit ?c then _ else _) = _ =>
        change (PyStr.is_digit c) with true;
        let v := eval vm_compute in (PyStr.digit_val c) in
        change (PyStr.digit_val c) with v
    end;
    cbv beta iota; rewrite IHd; destruct d; reflexivity.
Qed.

Lemma uint_value_acc (d : Decimal.uint) (p : positive) :
  uint_value d (Zpos p) = Zpos (Pos.of_uint_acc d p).
Proof.
  revert p. induction d; intros p; cbn [uint_value Pos.of_uint_acc];
    try reflexivity;
    try (rewrite <- IHd; f_equal; lia).
Qed.

Lemma uint_value_0 (d : Decimal.uint) :
  uint_value d 0 = Z.of_N (Pos.of_uint d).
Proof.
  induction d; cbn [uint_value Pos.of_uint]; try reflexivity;
    try exact IHd;
    (change (10 * 0 + _) with (Zpos 1) || change (10 * 0 + _) with (Zpos 2)
     || change (10 * 0 + _) with (Zpos 3) || change (10 * 0 + _) with (Zpos 4)
     || change (10 * 0 + _) with (Zpos 5) || change (10 * 0 + _) with (Zpos 6)
     || change (10 * 0 + _) with (Zpos 7) || change (10 * 0 + _) with (Zpos 8)
     || change (10 * 0 + _) with (Zpos 9));
    rewrite uint_value_acc; reflexivity.
Qed.

Lemma lstrip_no_space (s : string) :
  no_space s = true -> PyStr.lstrip_by PyStr.is_space s = s.
Proof.
  destruct s as [| c r]; [reflexivity |]. cbn [no_space PyStr.lstrip_by].
  intros H. apply andb_true_iff in H. destruct H as [Hc _].
  apply negb_true_iff in Hc. now rewrite Hc.
Qed.

Lemma rstrip_no_space (s : string) :
  no_space s = true -> PyStr.rstrip_by PyStr.is_space s = s.
Proof.
  induction s as [| c r IH]; [reflexivity |]. cbn [no_space PyStr.rstrip_by].
  intros H. apply andb_true_iff in H. destruct H as [Hc Hr].
  apply negb_true_iff in Hc. rewrite (IH Hr), Hc. destruct r; reflexivity.
Qed.

Lemma strip_no_space (s : string) : no_space s = true -> PyStr.strip s = s.
Proof.
  intros H. unfold PyStr.strip. rewrite (lstrip_no_space s H).
  exact (rstrip_no_space s H).
Qed.

Lemma no_space_string_of_uint (d : Decimal.uint) :
  no_space (NilEmpty.string_of_uint d) = true.
Proof. induction d; [reflexivity | ..]; exact IHd. Qed.

Lemma to_int_string_of_uint (d : Decimal.uint) :
  d <> Decimal.Nil ->
  PyStr.to_int (NilEmpty.string_of_uint d) = Some (Z.of_N (Pos.of_uint d)).
Proof.
  intros Hd. unfold PyStr.to_int.
  rewrite (strip_no_space _ (no_space_string_of_uint d)).
  rewrite <- uint_value_0.
  pose proof (digits_string_of_uint d 0 false) as H.
  destruct d; try congruence; exact H.
Qed.

(** Reading back the decimal text of an integer gives the integer. *)
Lemma int_of_int (z : Z) : int (PyStr.of_int z) = Val z.
Proof.
  unfold int, PyStr.of_int.
  destruct z as [| p | p]; [reflexivity | |];
    cbn [Z.to_int NilZero.string_of_int];
    pose proof (DecimalPos.Unsigned.to_uint_nonnil p) as Hn;
    pose proof (DecimalPos.Unsigned.of_to p) as Hof;
    unfold NilZero.string_of_uint.
  - replace (match Pos.to_uint p with Decimal.Nil => "0" | _ => NilEmpty.string_of_uint (Pos.to_uint p) end)
      with (NilEmpty.string_of_uint (Pos.to_uint p))
      by (destruct (Pos.to_uint p); congruence).
    rewrite (to_int_string_of_uint _ Hn), Hof. reflexivity.
  - replace (match Pos.to_uint p with Decimal.Nil => "0" | _ => NilEmpty.string_of_uint (Pos.to_uint p) end)
      with (NilEmpty.string_of_uint (Pos.to_uint p))
      by (destruct (Pos.to_uint p); congruence).
    unfold PyStr.to_int.
    assert (Hs : no_space (String "-" (NilEmpty.string_of_uint (Pos.to_uint p))) = true)
      by (cbn [no_space]; rewrite no_space_string_of_uint; reflexivity).
    rewrite (strip_no_space _ Hs).
    pose proof (digits_string_of_uint (Pos.to_uint p) 0 false) as H.
    rewrite uint_value_0, Hof in H.
    change (match String "-" (NilEmpty.string_of_uint (Pos.to_uint p)) with
            | String "-" r => option_map Z.opp (PyStr.digits 0 false r)
            | String "+" r => PyStr.digits 0 false r
            | t => PyStr.digits 0 false t
            end)
      with (option_map Z.opp (PyStr.digits 0 false (NilEmpty.string_of_uint (Pos.to_uint p)))).
    rewrite H. destruct (Pos.to_uint p); try congruence; reflexivity.
Qed.

(** *** The background listener: start, stop and their composition *)

Lemma no_space_of_int (z : Z) : no_space (PyStr.of_int z) = true.
Proof.
  unfold PyStr.of_int.
  destruct z as [| p | p]; [reflexivity | |];
    cbn [Z.to_int NilZero.string_of_int]; unfold NilZero.string_of_uint;
    destruct (Pos.to_uint p) eqn:E; try reflexivity;
    rewrite <- E; cbn [no_space]; now rewrite no_space_string_of_uint.
Qed.

Lemma strip_of_int (z : Z) : PyStr.strip (PyStr.of_int z) = PyStr.of_int z.
Proof. exact (strip_no_space _ (no_space_of_int z)). Qed.

(** [stop_background] on a readable pid file. *)
Lemma stop_background_readable (env : Env) (w : World) (txt : string) (pid : Z) :
  pid_file w = Some txt ->
  int (PyStr.strip txt) = Val pid ->
  stop_background env w = stop_result env pid w.
Proof.
  intros Hpid Hint. unfold stop_background, stop_result, stopped. run.
  repeat (rewrite Hpid; run). rewrite Hint. run.
  destruct (os_kill env pid SIGTERM) as [e |]; [destruct e |];
    cbn [is_ProcessLookupError is_PermissionError orb]; run;
    rewrite <- ?app_assoc; reflexivity.
Qed.

(** [start_background] from a state without a pid file. *)
Lemma start_background_fresh (env : Env) (args : Namespace) (w : World) :
  pid_file w = None ->
  start_background env args w =
    match Popen env (spawn_command env args) with
    | Val pid => (Val 0, started env args w pid)
    | Exc e =>
        if is_Exception e then
          (Val 1,
           {| trace := trace w ++
                [EOpenAppend LOG_FILE; EOpenAppend LOG_FILE;
                 EPopen (spawn_command env args);
                 EPrint ("Failed to start background listener: "
                           ++ exc_str env e)];
              pid_file := None;
              log_file := true |})
        else
          (Exc e,
           {| trace := trace w ++
                [EOpenAppend LOG_FILE; EOpenAppend LOG_FILE;
                 EPopen (spawn_command env args)];
              pid_file := None;
              log_file := true |})
    end.
Proof.
  intros Hpid. unfold start_background, started. run.
  repeat (rewrite Hpid; run). fold (spawn_command env args).
  destruct (Popen env (spawn_command env args)) as [pid | e]; run.
  - rewrite <- !app_assoc. reflexivity.
  - destruct (is_Exception e); run; rewrite <- !app_assoc, ?Hpid; reflexivity.
Qed.

(** [start_background] on the pid file of a process that answers. *)
Lemma start_background_live (env : Env) (args : Namespace) (w : World)
    (txt : string) (pid : Z) :
  pid_file w = Some txt ->
  int (PyStr.strip txt) = Val pid ->
  os_kill env pid 0 = None ->
  start_background env args w =
    (Val 1,
     emit_all [EKill pid 0;
               EPrint ("Already running (pid " ++ PyStr.strip txt
                         ++ "). Stop first with --stop.")] w).
Proof.
  intros Hpid Hint Hk.
  pose proof (int_nonempty _ _ Hint) as Hne.
  unfold start_background, _is_running, emit_all. run.
  repeat (rewrite Hpid; run). rewrite Hne, Hint. run. rewrite Hk. run.
  rewrite <- !app_assoc, ?Hpid. reflexivity.
Qed.

(** X1. [--stop] without a pid file prints one line and returns 1: no
    signal is sent, no file is touched and the configuration is not
    read, whatever the other arguments are. *)
Theorem stop_without_pid_file (env : Env) (args : Namespace) (w : World) :
  args_stop args = true ->
  pid_file w = None ->
  main env args w =
    (Val 1, emit_all [EPrint "No pid file found. Nothing to stop."] w).
Proof.
  intros Hs Hpid. unfold main. rewrite Hs.
  unfold stop_background, emit_all. run. rewrite Hpid. run.
  rewrite ?Hpid. reflexivity.
Qed.

Lemma stop_without_pid_file_witness :
  main quiet_env stopping_args empty_world =
    (Val 1, emit_all [EPrint "No pid file found. Nothing to stop."] empty_world).
Proof.
  exact (stop_without_pid_file quiet_env stopping_args empty_world
           eq_refl eq_refl).
Defined.

(** X2. When the pid file does not hold an integer, [stop_background]
    prints that it could not read it, removes the pid file, leaves the log
    file where it is, sends no signal and returns 1. *)
Theorem stop_unreadable_pid_file (env : Env) (w : World) (txt : string) :
  pid_file w = Some txt ->
  int (PyStr.strip txt) = Exc ValueError ->
  stop_background env w =
    (Val 1,
     {| trace := trace w ++ [EPrint "Could not read pid file.";
                             EUnlink PID_FILE];
        pid_file := None;
        log_file := log_file w |}).
Proof.
  intros Hpid Hint. unfold stop_background. run.
  repeat (rewrite Hpid; run). rewrite Hint. run.
  cbn [is_Exception]. run. rewrite <- !app_assoc. reflexivity.
Qed.

Lemma stop_unreadable_pid_file_witness :
  stop_background quiet_env
    {| trace := []; pid_file := Some "12ab"; log_file := true |} =
    (Val 1,
     {| trace := [EPrint "Could not read pid file."; EUnlink PID_FILE];
        pid_file := None;
        log_file := true |}).
Proof.
  exact (stop_unreadable_pid_file quiet_env
           {| trace := []; pid_file := Some "12ab"; log_file := true |}
           "12ab" eq_refl eq_refl).
Defined.

(** X3. [--background] without a pid file opens the log file twice for
    appending, spawns the listener with the backend and the configuration
    path of the command line, writes the decimal pid of the child to the
    pid file, prints it and returns 0; the configuration is not read by
    the parent. *)
Theorem start_background_spawns (env : Env) (args : Namespace) (w : World)
    (pid : Z) :
  args_stop args = false ->
  args_background args = true ->
  pid_file w = None ->
  Popen env (spawn_command env args) = Val pid ->
  main env args w = (Val 0, started env args w pid) /\
  spawn_command env args =
    [sys_executable env; "-u"; script_path env; "--listen";
     "--backend"; args_backend args;
     "--config"; path_text (args_config args)].
Proof.
  intros Hs Hb Hpid Hp. split; [| reflexivity].
  unfold main. rewrite Hs, Hb.
  rewrite (start_background_fresh env args w Hpid), Hp. reflexivity.
Qed.

Lemma start_background_spawns_witness :
  main quiet_env spawning_args empty_world =
    (Val 0, started quiet_env spawning_args empty_world 4242) /\
  spawn_command quiet_env spawning_args =
    [sys_executable quiet_env; "-u"; script_path quiet_env; "--listen";
     "--backend"; args_backend spawning_args;
     "--config"; path_text (args_config spawning_args)].
Proof.
  exact (start_background_spawns quiet_env spawning_args empty_world 4242
           eq_refl eq_refl eq_refl eq_refl).
Defined.

(** X4. When the child cannot be spawned, [start_background] prints the
    failure and returns 1 without writing a pid file; the log file it has
    opened stays behind. *)
Theorem start_background_spawn_failure (env : Env) (args : Namespace)
    (w : World) (e : exn) :
  pid_file w = None ->
  Popen env (spawn_command env args) = Exc e ->
  is_Exception e = true ->
  start_background env args w =
    (Val 1,
     {| trace := trace w ++
          [EOpenAppend LOG_FILE; EOpenAppend LOG_FILE;
           EPopen (spawn_command env args);
           EPrint ("Failed to start background listener: " ++ exc_str env e)];
        pid_file := None;
        log_file := true |}).
Proof.
  intros Hpid Hp He.
  rewrite (start_background_fresh env args w Hpid), Hp, He. reflexivity.
Qed.

Lemma start_background_spawn_failure_witness :
  start_background failing_spawn_env spawning_args empty_world =
    (Val 1,
     {| trace := trace empty_world ++
          [EOpenAppend LOG_FILE; EOpenAppend LOG_FILE;
           EPopen (spawn_command failing_spawn_env spawning_args);
           EPrint ("Failed to start background listener: "
                     ++ exc_str failing_spawn_env OSError)];
        pid_file := None;
        log_file := true |}).
Proof.
  exact (start_background_spawn_failure failing_spawn_env spawning_args
           empty_world OSError eq_refl eq_refl eq_refl).
Defined.

(** X5. Start, then stop: the pid that [start_background] writes is the
    pid that [stop_background] reads back and signals with SIGTERM, and
    the stop leaves neither the pid file nor the log file. *)
Theorem start_then_stop (env : Env) (args : Namespace) (w : World) (pid : Z) :
  pid_file w = None ->
  Popen env (spawn_command env args) = Val pid ->
  start_background env args w = (Val 0, started env args w pid) /\
  stop_background env (started env args w pid) =
    stop_result env pid (started env args w pid) /\
  pid_file (snd (stop_background env (started env args w pid))) = None /\
  log_file (snd (stop_background env (started env args w pid))) = false.
Proof.
  intros Hpid Hp.
  assert (Hstop : stop_background env (started env args w pid) =
                  stop_result env pid (started env args w pid)).
  { apply (stop_background_readable env _ (PyStr.of_int pid) pid);
      [reflexivity |]. rewrite strip_of_int. apply int_of_int. }
  split; [| split; [exact Hstop |]].
  - rewrite (start_background_fresh env args w Hpid), Hp. reflexivity.
  - rewrite Hstop. unfold stop_result.
    destruct (os_kill env pid SIGTERM) as [e |]; [destruct e |]; auto.
Qed.

Lemma start_then_stop_witness :
  start_background quiet_env spawning_args empty_world =
    (Val 0, started quiet_env spawning_args empty_world 4242) /\
  stop_background quiet_env (started quiet_env spawning_args empty_world 4242) =
    stop_result quiet_env 4242 (started quiet_env spawning_args empty_world 4242) /\
  pid_file (snd (stop_background quiet_env
                   (started quiet_env spawning_args empty_world 4242))) = None /\
  log_file (snd (stop_background quiet_env
                   (started quiet_env spawning_args empty_world 4242))) = false.
Proof.
  exact (start_then_stop quiet_env spawning_args empty_world 4242
           eq_refl eq_refl).
Defined.

(** X6. Start twice: while the child of the first [start_background]
    answers the probe, a second one probes that very pid, refuses with
    exit code 1, spawns nothing and leaves the pid file as the first one
    wrote it. *)
Theorem start_twice_refused (env : Env) (args args' : Namespace) (w : World)
    (pid : Z) :
  pid_file w = None ->
  Popen env (spawn_command env args) = Val pid ->
  os_kill env pid 0 = None ->
  start_background env args w = (Val 0, started env args w pid) /\
  start_background env args' (started env args w pid) =
    (Val 1,
     emit_all [EKill pid 0;
               EPrint ("Already running (pid " ++ PyStr.of_int pid
                         ++ "). Stop first with --stop.")]
       (started env args w pid)) /\
  pid_file (snd (start_background env args' (started env args w pid))) =
    Some (PyStr.of_int pid).
Proof.
  intros Hpid Hp Hk.
  assert (Hsecond :
    start_background env args' (started env args w pid) =
      (Val 1,
       emit_all [EKill pid 0;
                 EPrint ("Already running (pid " ++ PyStr.of_int pid
                           ++ "). Stop first with --stop.")]
         (started env args w pid))).
  { pose proof (start_background_live env args' (started env args w pid)
                  (PyStr.of_int pid) pid eq_refl) as H.
    rewrite strip_of_int in H. apply H; [apply int_of_int | exact Hk]. }
  split; [| split; [exact Hsecond |]].
  - rewrite (start_background_fresh env args w Hpid), Hp. reflexivity.
  - rewrite Hsecond. reflexivity.
Qed.

Lemma start_twice_refused_witness :
  start_background quiet_env spawning_args empty_world =
    (Val 0, started quiet_env spawning_args empty_world 4242) /\
  start_background quiet_env spawning_args
    (started quiet_env spawning_args empty_world 4242) =
    (Val 1,
     emit_all [EKill 4242 0;
               EPrint ("Already running (pid " ++ PyStr.of_int 4242
                         ++ "). Stop first with --stop.")]
       (started quiet_env spawning_args empty_world 4242)) /\
  pid_file (snd (start_background quiet_env spawning_args
                   (started quiet_env spawning_args empty_world 4242))) =
    Some (PyStr.of_int 4242).
Proof.
  exact (start_twice_refused quiet_env spawning_args spawning_args
           empty_world 4242 eq_refl eq_refl eq_refl).
Defined.

(** X7. A pid file that holds something other than an integer makes
    [start_background] raise [ValueError]: nothing is probed, removed or
    spawned, and the pid file stays as it is. *)
Theorem start_background_unparsable_pid (env : Env) (args : Namespace)
    (w : World) (txt : string) :
  pid_file w = Some txt ->
  PyStr.is_empty (PyStr.strip txt) = false ->
  int (PyStr.strip txt) = Exc ValueError ->
  start_background env args w = (Exc ValueError, w).
Proof.
  intros Hpid Hne Hint. unfold start_background. run.
  repeat (rewrite Hpid; run). rewrite Hne, Hint. reflexivity.
Qed.

Lemma start_background_unparsable_pid_witness :
  start_background quiet_env spawning_args
    {| trace := []; pid_file := Some "12ab"; log_file := true |} =
    (Exc ValueError,
     {| trace := []; pid_file := Some "12ab"; log_file := true |}).
Proof.
  exact (start_background_unparsable_pid quiet_env spawning_args
           {| trace := []; pid_file := Some "12ab"; log_file := true |}
           "12ab" eq_refl eq_refl eq_refl).
Defined.

(** X8. A pid file that is empty or blank is stale without a probe:
    [start_background] removes it and goes on as from a state without a
    pid file. *)
Theorem start_background_blank_pid (env : Env) (args : Namespace)
    (w : World) (txt : string) :
  pid_file w = Some txt ->
  PyStr.is_empty (PyStr.strip txt) = true ->
  start_background env args w =
    start_background env args
      {| trace := trace w ++ [EUnlink PID_FILE];
         pid_file := None;
         log_file := log_file w |}.
Proof.
  intros Hpid Hne. unfold start_background. run.
  repeat (rewrite Hpid; run). rewrite Hne. reflexivity.
Qed.

Lemma start_background_blank_pid_witness :
  start_background quiet_env spawning_args
    {| trace := []; pid_file := Some "  "; log_file := false |} =
  start_background quiet_env spawning_args
    {| trace := [] ++ [EUnlink PID_FILE];
       pid_file := None;
       log_file := false |}.
Proof.
  exact (start_background_blank_pid quiet_env spawning_args
           {| trace := []; pid_file := Some "  "; log_file := false |}
           "  " eq_refl eq_refl).
Defined.

(** *** The configuration: failures, defaults, a second validation *)

Lemma validate_shortcuts_prefix (env : Env) (pre rest : list value) :
  forallb valid_entry pre = true ->
  validate_shortcuts env (pre ++ rest) =
    (fst (validate_shortcuts env rest),
     List.map with_defaults pre ++ snd (validate_shortcuts env rest))%list.
Proof.
  induction pre as [| a pre IH]; intros H.
  - cbn [app List.map]. now destruct (validate_shortcuts env rest).
  - cbn [forallb] in H. apply andb_true_iff in H. destruct H as [Ha Hpre].
    unfold valid_entry in Ha. apply andb_true_iff in Ha. destruct Ha as [Hd Hc].
    destruct a as [ | | | | | d]; try discriminate.
    cbn [app validate_shortcuts List.map]. fold required.
    destruct (check_fields_dict env d) as [[_ Hf] | [Hc' _]]; [| congruence].
    rewrite Hf. destruct (setdefaults_dict d) as [a1 [H1 H2]]. rewrite H1, H2.
    rewrite (IH Hpre). reflexivity.
Qed.

Lemma check_fields_first_missing (env : Env) (d : list (string * value))
    (k : string) :
  first_missing d = Some k ->
  check_fields env required (VDict d) =
    Exc (ConfigError ("Shortcut missing '" ++ k ++ "': " ++ py_str env (VDict d))).
Proof.
  unfold first_missing, required. cbn [find check_fields Py.contains obind].
  destruct (Py.has_key "name" d); cbn [negb];
    [| intros H; inversion H; reflexivity].
  destruct (Py.has_key "method" d); cbn [negb];
    [| intros H; inversion H; reflexivity].
  destruct (Py.has_key "endpoint" d); cbn [negb];
    [discriminate | intros H; inversion H; reflexivity].
Qed.

(** The first three checks of [validate_config] pass. *)
Lemma validate_config_list (env : Env) (d : list (string * value))
    (server : value) (l : list value) :
  Py.lookup "server" d = Some server ->
  Py.contains "base_url" server = Val true ->
  Py.contains "token" server = Val true ->
  Py.lookup "shortcuts" d = Some (VList l) ->
  validate_config env (VDict d) =
    (fst (validate_shortcuts env l),
     VDict (Py.store "shortcuts" (VList (snd (validate_shortcuts env l))) d)).
Proof.
  intros Hs Hb Ht Hl. unfold validate_config.
  cbn [Py.contains Py.getitem obind]. unfold Py.has_key.
  rewrite Hs, Hl. cbn [obind negb andb]. rewrite Hb. cbn [obind].
  rewrite Ht. cbn [obind negb andb].
  now destruct (validate_shortcuts env l).
Qed.

(** X9. [validate_config] reports the first shortcut, in the order of the
    file, that lacks a required field, and names the first field it lacks
    among [name], [method], [endpoint]. The object is left half-way: the
    shortcuts before that one have received their defaults, that one and
    the ones after it are untouched. *)
Theorem validate_config_first_failure (env : Env) (d : list (string * value))
    (server : value) (pre post : list value) (ad : list (string * value))
    (k : string) :
  Py.lookup "server" d = Some server ->
  Py.contains "base_url" server = Val true ->
  Py.contains "token" server = Val true ->
  Py.lookup "shortcuts" d = Some (VList (pre ++ VDict ad :: post)) ->
  forallb valid_entry pre = true ->
  first_missing ad = Some k ->
  validate_config env (VDict d) =
    (Exc (ConfigError ("Shortcut missing '" ++ k ++ "': "
                         ++ py_str env (VDict ad))),
     VDict (Py.store "shortcuts"
              (VList (List.map with_defaults pre ++ VDict ad :: post)) d)).
Proof.
  intros Hs Hb Ht Hl Hpre Hk.
  rewrite (validate_config_list env d server _ Hs Hb Ht Hl).
  rewrite (validate_shortcuts_prefix env pre _ Hpre).
  cbn [validate_shortcuts]. fold required.
  rewrite (check_fields_first_missing env ad k Hk). reflexivity.
Qed.

Lemma validate_config_first_failure_witness :
  validate_config quiet_env incomplete_config =
    (Exc (ConfigError
            ("Shortcut missing '" ++ "endpoint" ++ "': "
               ++ py_str quiet_env (VDict [("name", VStr "b"); ("method", VStr "get")]))),
     VDict (Py.store "shortcuts"
              (VList (List.map with_defaults
                        [VDict [("name", VStr "a"); ("method", VStr "get");
                                ("endpoint", VStr "/x")]]
                      ++ VDict [("name", VStr "b"); ("method", VStr "get")]
                         :: [VDict [("name", VStr "c")]]))
              [("server", sample_server);
               ("shortcuts",
                VList [VDict [("name", VStr "a"); ("method", VStr "get");
                              ("endpoint", VStr "/x")];
                       VDict [("name", VStr "b"); ("method", VStr "get")];
                       VDict [("name", VStr "c")]])])).
Proof.
  exact (validate_config_first_failure quiet_env
           [("server", sample_server);
            ("shortcuts",
             VList [VDict [("name", VStr "a"); ("method", VStr "get");
                           ("endpoint", VStr "/x")];
                    VDict [("name", VStr "b"); ("method", VStr "get")];
                    VDict [("name", VStr "c")]])]
           sample_server
           [VDict [("name", VStr "a"); ("method", VStr "get");
                   ("endpoint", VStr "/x")]]
           [VDict [("name", VStr "c")]]
           [("name", VStr "b"); ("method", VStr "get")]
           "endpoint" eq_refl eq_refl eq_refl eq_refl eq_refl eq_refl).
Defined.

Lemma validate_config_accepts (env : Env) (cfg cfg' : value) :
  validate_config env cfg = (Val tt, cfg') ->
  exists d server l,
    cfg = VDict d /\
    Py.lookup "server" d = Some server /\
    Py.contains "base_url" server = Val true /\
    Py.contains "token" server = Val true /\
    Py.lookup "shortcuts" d = Some (VList l) /\
    forallb valid_entry l = true /\
    cfg' = VDict (Py.store "shortcuts" (VList (List.map with_defaults l)) d).
Proof.
  unfold validate_config. intros H.
  destruct cfg as [ | b | z | s | l0 | d]; cbn [Py.contains Py.getitem obind] in H;
    try discriminate.
  - destruct (PyStr.contains "server" s); cbn [obind negb andb] in H;
      [destruct (PyStr.contains "shortcuts" s) |]; discriminate.
  - destruct (existsb _ l0); cbn [obind negb andb] in H;
      [destruct (existsb _ l0) |]; discriminate.
  - unfold Py.has_key in H.
    destruct (Py.lookup "server" d) as [server |] eqn:Hs;
      cbn [obind negb andb] in H; [| discriminate].
    destruct (Py.lookup "shortcuts" d) as [sv |] eqn:Hl;
      cbn [obind negb andb] in H; [| discriminate].
    destruct (Py.contains "base_url" server) as [[] | e] eqn:Hb;
      cbn [obind negb andb] in H; try discriminate.
    destruct (Py.contains "token" server) as [[] | e] eqn:Ht;
      cbn [obind negb andb] in H; try discriminate.
    destruct sv as [ | | | | l | ]; try discriminate.
    destruct (validate_shortcuts env l) as [r l'] eqn:Hv.
    inversion H; subst r cfg'; clear H.
    destruct (validate_shortcuts_ok env l l' Hv) as [-> Hall].
    exists d, server, l. repeat split; auto.
    rewrite forallb_forall. intros a Ha. rewrite Forall_forall in Hall.
    destruct (Hall a Ha) as [Hd Hc]. unfold valid_entry. now rewrite Hd, Hc.
Qed.

Lemma with_defaults_twice (a : value) :
  with_defaults (with_defaults a) = with_defaults a.
Proof.
  destruct a as [ | | | | | d]; try reflexivity.
  cbn [with_defaults].
  set (d1 := if Py.has_key "body" d then d else (d ++ [("body", VDict [])])%list).
  set (d2 := if Py.has_key "hotkey" d1 then d1 else (d1 ++ [("hotkey", VNone)])%list).
  assert (Hb1 : Py.has_key "body" d1 = true).
  { unfold d1. destruct (Py.has_key "body" d) eqn:E; [exact E |].
    unfold Py.has_key in *. induction d as [| [k v] r IH]; [reflexivity |].
    cbn [app Py.lookup] in *. destruct (String.eqb "body" k); [reflexivity |].
    apply IH. exact E. }
  assert (Hh2 : Py.has_key "hotkey" d2 = true).
  { unfold d2. destruct (Py.has_key "hotkey" d1) eqn:E; [exact E |].
    clear Hb1. unfold Py.has_key in *.
    induction d1 as [| [k v] r IH]; [reflexivity |].
    cbn [app Py.lookup] in *. destruct (String.eqb "hotkey" k); [reflexivity |].
    apply IH. exact E. }
  assert (Hb2 : Py.has_key "body" d2 = true).
  { unfold d2. destruct (Py.has_key "hotkey" d1); [exact Hb1 |].
    now apply has_key_app. }
  rewrite Hb2, Hh2. reflexivity.
Qed.

Lemma store_store (k : string) (x y : value) (d : list (string * value)) :
  Py.store k x (Py.store k y d) = Py.store k x d.
Proof.
  induction d as [| [k' v] r IH]; [reflexivity |]. cbn [Py.store].
  destruct (String.eqb k k') eqn:E; cbn [Py.store]; rewrite E;
    [reflexivity | now rewrite IH].
Qed.

Lemma map_with_defaults_valid (l : list value) :
  forallb valid_entry l = true ->
  forallb valid_entry (List.map with_defaults l) = true.
Proof.
  intros H. rewrite forallb_forall in *. intros a Ha.
  apply in_map_iff in Ha. destruct Ha as [a0 [<- Ha0]].
  apply with_defaults_valid. now apply H.
Qed.

(** X10. Validation is idempotent: a configuration that [validate_config]
    has accepted and completed is accepted again and not changed any
    more. *)
Theorem validate_config_idempotent (env : Env) (cfg cfg' : value) :
  validate_config env cfg = (Val tt, cfg') ->
  validate_config env cfg' = (Val tt, cfg').
Proof.
  intros H.
  destruct (validate_config_accepts env cfg cfg' H)
    as (d & server & l & -> & Hs & Hb & Ht & Hl & Hvalid & ->).
  assert (Hk : Py.has_key "shortcuts" d = true)
    by (unfold Py.has_key; now rewrite Hl).
  rewrite (validate_config_list env _ server (List.map with_defaults l)).
  - pose proof (validate_shortcuts_prefix env (List.map with_defaults l) []
                  (map_with_defaults_valid l Hvalid)) as Hp.
    rewrite app_nil_r in Hp. rewrite Hp. cbn [validate_shortcuts fst snd].
    rewrite app_nil_r, store_store.
    rewrite List.map_map.
    rewrite (List.map_ext _ with_defaults with_defaults_twice).
    reflexivity.
  - now rewrite lookup_store_other.
  - exact Hb.
  - exact Ht.
  - now apply lookup_store_same.
Qed.

Lemma validate_config_idempotent_witness :
  validate_config quiet_env (snd (validate_config quiet_env blank_config)) =
    (Val tt, snd (validate_config quiet_env blank_config)).
Proof.
  exact (validate_config_idempotent quiet_env blank_config
           (snd (validate_config quiet_env blank_config)) eq_refl).
Defined.

Lemma lookup_snoc (k k0 : string) (x : value) (d : list (string * value)) :
  Py.lookup k (d ++ [(k0, x)]) =
    match Py.lookup k d with
    | Some v => Some v
    | None => if String.eqb k k0 then Some x else None
    end.
Proof.
  induction d as [| [k' v] r IH]; cbn [app Py.lookup]; [reflexivity |].
  destruct (String.eqb k k'); [reflexivity | exact IH].
Qed.

(** The keys of a shortcut after the two [setdefault] calls. *)
Lemma lookup_with_defaults (d : list (string * value)) (k : string) :
  Py.getitem (with_defaults (VDict d)) k =
    match Py.lookup k d with
    | Some v => Val v
    | None =>
        if String.eqb k "body" then Val (VDict [])
        else if String.eqb k "hotkey" then Val VNone
        else Exc (KeyError k)
    end.
Proof.
  cbn [with_defaults Py.getitem]. unfold Py.has_key.
  destruct (Py.lookup "body" d) as [b |] eqn:Eb.
  - destruct (Py.lookup "hotkey" d) as [h |] eqn:Eh.
    + destruct (Py.lookup k d) eqn:Ek; [reflexivity |].
      destruct (String.eqb_spec k "body") as [-> | _]; [congruence |].
      destruct (String.eqb_spec k "hotkey") as [-> | _]; [congruence |].
      reflexivity.
    + rewrite lookup_snoc. destruct (Py.lookup k d) eqn:Ek; [reflexivity |].
      destruct (String.eqb_spec k "body") as [-> | _]; [congruence |].
      destruct (String.eqb k "hotkey"); reflexivity.
  - rewrite (lookup_snoc "hotkey" "body"). destruct (Py.lookup "hotkey" d) as [h |] eqn:Eh.
    + rewrite lookup_snoc. destruct (Py.lookup k d) eqn:Ek; [reflexivity |].
      destruct (String.eqb_spec k "body") as [-> | _]; [reflexivity |].
      destruct (String.eqb_spec k "hotkey") as [-> | _]; [congruence |].
      reflexivity.
    + cbn [String.eqb Ascii.eqb Bool.eqb]. rewrite !lookup_snoc.
      destruct (Py.lookup k d) eqn:Ek; [reflexivity |].
      destruct (String.eqb k "body"); [reflexivity |].
      destruct (String.eqb k "hotkey"); reflexivity.
Qed.

Lemma with_defaults_defaulted (a : value) :
  is_dict a = true -> defaulted a (with_defaults a).
Proof.
  destruct a as [ | | | | | d]; try discriminate. intros _.
  unfold defaulted, has. repeat split.
  - intros k v. rewrite lookup_with_defaults. cbn [Py.getitem].
    destruct (Py.lookup k d); [auto | discriminate].
  - rewrite lookup_with_defaults. cbn [Py.getitem].
    destruct (Py.lookup "body" d); [discriminate | reflexivity].
  - rewrite lookup_with_defaults. cbn [Py.getitem].
    destruct (Py.lookup "hotkey" d); [discriminate | reflexivity].
  - intros k Hkb Hkh. rewrite lookup_with_defaults. cbn [Py.getitem].
    apply String.eqb_neq in Hkb, Hkh. rewrite Hkb, Hkh. reflexivity.
Qed.

(** X11. What an accepted configuration keeps: the server and every other
    top-level key stay as they are; the shortcuts stay in their order and
    number; in every shortcut each key that was there keeps its value (an
    explicit [body] or [hotkey] is never overwritten, also when it is
    [null] or empty), and [body] and [hotkey] are filled with the empty
    mapping and [None] where they were missing. *)
Theorem validate_config_keeps (env : Env) (cfg cfg' : value) :
  validate_config env cfg = (Val tt, cfg') ->
  (forall k, k <> "shortcuts" -> Py.getitem cfg' k = Py.getitem cfg k) /\
  exists l l',
    Py.getitem cfg "shortcuts" = Val (VList l) /\
    Py.getitem cfg' "shortcuts" = Val (VList l') /\
    Forall2 defaulted l l'.
Proof.
  intros H.
  destruct (validate_config_accepts env cfg cfg' H)
    as (d & server & l & -> & Hs & Hb & Ht & Hl & Hvalid & ->).
  split.
  - intros k Hk. cbn [Py.getitem]. apply String.eqb_neq in Hk.
    now rewrite lookup_store_other.
  - exists l, (List.map with_defaults l). cbn [Py.getitem].
    rewrite Hl. rewrite lookup_store_same
      by (unfold Py.has_key; now rewrite Hl).
    split; [reflexivity |]. split; [reflexivity |].
    clear Hl H. induction l as [| a r IHr]; cbn [List.map]; constructor.
    + cbn [forallb] in Hvalid. apply andb_true_iff in Hvalid.
      destruct Hvalid as [Ha _]. unfold valid_entry in Ha.
      apply andb_true_iff in Ha. apply with_defaults_defaulted.
      exact (proj1 Ha).
    + cbn [forallb] in Hvalid. apply andb_true_iff in Hvalid.
      apply IHr. exact (proj2 Hvalid).
Qed.

Lemma validate_config_keeps_witness :
  (forall k, k <> "shortcuts" ->
     Py.getitem (snd (validate_config quiet_env blank_config)) k
       = Py.getitem blank_config k) /\
  exists l l',
    Py.getitem blank_config "shortcuts" = Val (VList l) /\
    Py.getitem (snd (validate_config quiet_env blank_config)) "shortcuts"
      = Val (VList l') /\
    Forall2 defaulted l l'.
Proof.
  exact (validate_config_keeps quiet_env blank_config
           (snd (validate_config quiet_env blank_config)) eq_refl).
Defined.

(** *** Loading the configuration *)

(** X12. When the configuration file does not exist, [main] prints
    [Config error: Config file not found: PATH] and returns 1; no parser
    is called and nothing else happens. *)
Theorem main_missing_config (env : Env) (args : Namespace) (w : World) :
  args_stop args = false ->
  args_background args = false ->
  read_text env (args_config args) = None ->
  main env args w =
    (Val 1,
     emit_all [EPrint ("Config error: Config file not found: "
                         ++ path_text (args_config args))] w).
Proof.
  intros Hs Hb Hr. unfold main, load_and_validate, load_config.
  rewrite Hs, Hb, Hr. reflexivity.
Qed.

Lemma main_missing_config_witness :
  main no_file_env (sample_args true (Some "table_led")) empty_world =
    (Val 1,
     emit_all [EPrint ("Config error: Config file not found: "
                         ++ path_text (args_config (sample_args true (Some "table_led"))))]
       empty_world).
Proof.
  exact (main_missing_config no_file_env (sample_args true (Some "table_led"))
           empty_world eq_refl eq_refl eq_refl).
Defined.

(** X13. The parser is picked by the suffix of the path, compared without
    regard to case: YAML for [.yaml] and [.yml], JSON for everything else.
    When the picked parser raises a parse error ([YAMLError] or
    [JSONDecodeError]), [main] prints [Config error: Config parse error:
    ...] with the text of that error and returns 1. *)
Theorem main_parse_error (env : Env) (args : Namespace) (w : World)
    (content : string) (e : exn) :
  args_stop args = false ->
  args_background args = false ->
  read_text env (args_config args) = Some content ->
  (if is_yaml_suffix (PyStr.lower (path_suffix (args_config args)))
   then yaml_safe_load env content
   else json_loads env content) = Exc e ->
  is_parse_error e = true ->
  main env args w =
    (Val 1,
     emit_all [EPrint ("Config error: Config parse error: " ++ exc_str env e)] w).
Proof.
  intros Hs Hb Hr Hp He. unfold main, load_and_validate, load_config.
  rewrite Hs, Hb, Hr, Hp, He. reflexivity.
Qed.

Lemma main_parse_error_witness :
  main broken_file_env
    {| args_config := {| path_text := "ha.YML"; path_suffix := ".YML" |};
       args_list := true; args_trigger := None; args_listen := false;
       args_backend := "keyboard"; args_background := false;
       args_stop := false |} empty_world =
    (Val 1,
     emit_all [EPrint ("Config error: Config parse error: "
                         ++ exc_str broken_file_env YAMLError)] empty_world).
Proof.
  exact (main_parse_error broken_file_env
           {| args_config := {| path_text := "ha.YML"; path_suffix := ".YML" |};
              args_list := true; args_trigger := None; args_listen := false;
              args_backend := "keyboard"; args_background := false;
              args_stop := false |}
           empty_world "server: [" YAMLError
           eq_refl eq_refl eq_refl eq_refl eq_refl).
Defined.

(** X14. A configuration file that loads to [None] (an empty YAML file),
    to a truth value or to a number is not reported as a configuration
    error: the first membership test of [validate_config] raises
    [TypeError], which [main] does not catch. *)
Theorem main_scalar_config (env : Env) (args : Namespace) (w : World)
    (cfg : value) :
  args_stop args = false ->
  args_background args = false ->
  load_config env (args_config args) = Val cfg ->
  is_scalar cfg = true ->
  validate_config env cfg = (Exc TypeError, cfg) /\
  main env args w = (Exc TypeError, w).
Proof.
  intros Hs Hb Hl Hc.
  assert (Hv : validate_config env cfg = (Exc TypeError, cfg))
    by (destruct cfg; try discriminate; reflexivity).
  split; [exact Hv |].
  unfold main, load_and_validate. rewrite Hs, Hb, Hl. cbn [obind].
  rewrite Hv. reflexivity.
Qed.

Lemma main_scalar_config_witness :
  validate_config empty_file_env VNone = (Exc TypeError, VNone) /\
  main empty_file_env (sample_args true None) empty_world
    = (Exc TypeError, empty_world).
Proof.
  exact (main_scalar_config empty_file_env (sample_args true None) empty_world
           VNone eq_refl eq_refl eq_refl eq_refl).
Defined.

(** *** Triggering when the call fails *)

(** X15. When the transport raises (timeout, refused connection),
    [trigger_action] has issued the one call, prints
    [[SOURCE] NAME: error TEXT] and returns normally: the failure does not
    propagate and the call is not repeated. *)
Theorem trigger_action_transport_failure (env : Env) (server a : value)
    (source : string) (w : World) (q : HttpRequest) (msg : string) :
  valid_entry a = true ->
  build_request env server a = Val q ->
  requests_request env q = inr msg ->
  trigger_action env server a source w =
    (Val tt,
     emit_all [EPrint (triggering_line env source a);
               ERequest q;
               EPrint ("[" ++ source ++ "] " ++ field env "name" a
                         ++ ": error " ++ msg)] w).
Proof.
  intros Hv Hq Hr. rewrite (trigger_action_valid env server a source w Hv).
  unfold trigger_events. rewrite Hq, Hr. reflexivity.
Qed.

Lemma trigger_action_transport_failure_witness :
  trigger_action unreachable_env sample_server sample_action "hotkey" empty_world =
    (Val tt,
     emit_all [EPrint (triggering_line unreachable_env "hotkey" sample_action);
               ERequest {| req_method := "POST";
                           req_url := "http://ha.local:8123/api/services/light/toggle";
                           req_headers := [("Authorization", "Bearer secret");
                                           ("Content-Type", "application/json")];
                           req_json := VDict [("entity_id", VStr "light.table")];
                           req_timeout := 15 |};
               EPrint ("[" ++ "hotkey" ++ "] " ++ field unreachable_env "name" sample_action
                         ++ ": error " ++ "Connection refused")] empty_world).
Proof.
  exact (trigger_action_transport_failure unreachable_env sample_server
           sample_action "hotkey" empty_world _ "Connection refused"
           eq_refl eq_refl eq_refl).
Defined.

(** X16. When the request cannot be built from the configuration (a
    [base_url], [endpoint] or [method] that is not a string),
    [trigger_action] issues no HTTP call at all, prints the exception as
    [[SOURCE] NAME: error ...] and returns normally. *)
Theorem trigger_action_unbuildable (env : Env) (server a : value)
    (source : string) (w : World) (e : exn) :
  valid_entry a = true ->
  build_request env server a = Exc e ->
  trigger_action env server a source w =
    (Val tt,
     emit_all [EPrint (triggering_line env source a);
               EPrint ("[" ++ source ++ "] " ++ field env "name" a
                         ++ ": error " ++ exc_str env e)] w) /\
  http_calls (trace (snd (trigger_action env server a source w))) =
    http_calls (trace w).
Proof.
  intros Hv Hq.
  assert (H : trigger_action env server a source w =
    (Val tt,
     emit_all [EPrint (triggering_line env source a);
               EPrint ("[" ++ source ++ "] " ++ field env "name" a
                         ++ ": error " ++ exc_str env e)] w)).
  { rewrite (trigger_action_valid env server a source w Hv).
    unfold trigger_events. rewrite Hq. reflexivity. }
  split; [exact H |]. rewrite H. cbn [snd emit_all trace].
  rewrite http_calls_app. cbn [http_calls]. now rewrite app_nil_r.
Qed.

Lemma trigger_action_unbuildable_witness :
  trigger_action quiet_env numeric_server sample_action "cli" empty_world =
    (Val tt,
     emit_all [EPrint (triggering_line quiet_env "cli" sample_action);
               EPrint ("[" ++ "cli" ++ "] " ++ field quiet_env "name" sample_action
                         ++ ": error " ++ exc_str quiet_env AttributeError)]
       empty_world) /\
  http_calls (trace (snd (trigger_action quiet_env numeric_server sample_action
                            "cli" empty_world))) =
    http_calls (trace empty_world).
Proof.
  exact (trigger_action_unbuildable quiet_env numeric_server sample_action
           "cli" empty_world AttributeError eq_refl eq_refl).
Defined.

(** *** Registration of the hotkeys *)

(** The shortcuts the library takes are registered one after the other,
    and the loop goes on with the rest. *)
Lemma keyboard_register_prefix (env : Env) (server : value)
    (pre rest : list value) (w : World) :
  forallb valid_entry pre = true ->
  forallb (keyboard_accepts env) pre = true ->
  keyboard_register env server (pre ++ rest) w =
    keyboard_register env server rest
      (emit_all (flat_map (keyboard_events env) pre) w).
Proof.
  revert w. induction pre as [| a r IH]; intros w Hv Ha.
  - cbn [app flat_map]. now rewrite emit_all_nil.
  - cbn [forallb] in Hv, Ha. apply andb_true_iff in Hv, Ha.
    destruct Hv as [Hv Hvr], Ha as [Ha Har].
    destruct (valid_entry_dict a Hv) as (d & n & m & e & -> & Hn & _).
    cbn [app keyboard_register flat_map].
    unfold keyboard_events at 1. unfold keyboard_accepts in Ha.
    unfold field. cbn [Py.get Py.getitem] in *. rewrite Hn.
    destruct (Py.lookup "hotkey" d) as [h |]; run.
    + destruct (Py.truthy h); cbn [negb orb] in *; run.
      * destruct (keyboard_add_hotkey env h); [discriminate |]. run.
        rewrite (IH _ Hvr Har). unfold emit_all. cbn [trace pid_file log_file app].
        rewrite <- !app_assoc. reflexivity.
      * rewrite (IH _ Hvr Har). reflexivity.
    + cbn [Py.truthy negb]. run. rewrite (IH _ Hvr Har). reflexivity.
Qed.

Lemma keyboard_register_run (env : Env) (server : value) (l : list value)
    (w : World) :
  forallb valid_entry l = true ->
  forallb (keyboard_accepts env) l = true ->
  keyboard_register env server l w =
    (Val tt, emit_all (flat_map (keyboard_events env) l) w).
Proof.
  intros Hv Ha.
  pose proof (keyboard_register_prefix env server l [] w Hv Ha) as H.
  rewrite app_nil_r in H. exact H.
Qed.

Lemma http_calls_keyboard (env : Env) (l : list value) :
  http_calls (flat_map (keyboard_events env) l) = [].
Proof.
  induction l as [| a r IH]; [reflexivity |]. cbn [flat_map].
  rewrite http_calls_app, IH, app_nil_r. unfold keyboard_events.
  destruct (Py.get a "hotkey" VNone) as [h |]; [| reflexivity].
  destruct (Py.truthy h); reflexivity.
Qed.

(** X17. With the [keyboard] backend, when the library takes every
    hotkey, the shortcuts are registered in the order of the file, each
    shortcut with a hotkey by one library call followed by one printed
    line and each shortcut without one by nothing; then the listening
    line is printed and the blocking wait starts, and the function ends as
    the wait ends. No HTTP call is issued while registering. *)
Theorem listen_with_keyboard_registers (env : Env) (server : value)
    (l : list value) (w : World) :
  keyboard env = true ->
  forallb valid_entry l = true ->
  forallb (keyboard_accepts env) l = true ->
  listen_with_keyboard env server l w =
    (ended (keyboard_wait env),
     emit_all (flat_map (keyboard_events env) l
                 ++ [EPrint "Listening for hotkeys (Ctrl+C to exit)..."; EWait]) w) /\
  http_calls (trace (snd (listen_with_keyboard env server l w))) =
    http_calls (trace w).
Proof.
  intros Hk Hv Ha.
  assert (H : listen_with_keyboard env server l w =
    (ended (keyboard_wait env),
     emit_all (flat_map (keyboard_events env) l
                 ++ [EPrint "Listening for hotkeys (Ctrl+C to exit)..."; EWait]) w)).
  { unfold listen_with_keyboard. rewrite Hk. cbn [negb].
    unfold bind at 1. rewrite (keyboard_register_run env server l w Hv Ha).
    unfold emit_all, ended. run.
    destruct (keyboard_wait env); run; rewrite <- !app_assoc; reflexivity. }
  split; [exact H |]. rewrite H. cbn [snd emit_all trace].
  rewrite !http_calls_app, http_calls_keyboard. cbn [http_calls app].
  now rewrite app_nil_r.
Qed.

Lemma listen_with_keyboard_registers_witness :
  listen_with_keyboard quiet_env sample_server
    [VDict unbound_entry; sample_action; second_action] empty_world =
    (ended (keyboard_wait quiet_env),
     emit_all (flat_map (keyboard_events quiet_env)
                 [VDict unbound_entry; sample_action; second_action]
                 ++ [EPrint "Listening for hotkeys (Ctrl+C to exit)..."; EWait])
       empty_world) /\
  http_calls (trace (snd (listen_with_keyboard quiet_env sample_server
                            [VDict unbound_entry; sample_action; second_action]
                            empty_world))) =
    http_calls (trace empty_world).
Proof.
  exact (listen_with_keyboard_registers quiet_env sample_server
           [VDict unbound_entry; sample_action; second_action] empty_world
           eq_refl eq_refl eq_refl).
Defined.

(** X18. With the [keyboard] backend, the first hotkey the library refuses
    with [ValueError] ends the registration with a [ConfigError] that
    names the hotkey: the shortcuts before it stay registered, the ones
    after it are not looked at, and the listening never starts. *)
Theorem listen_with_keyboard_refused (env : Env) (server : value)
    (pre post : list value) (a h : value) (w : World) :
  keyboard env = true ->
  forallb valid_entry pre = true ->
  forallb (keyboard_accepts env) pre = true ->
  Py.get a "hotkey" VNone = Val h ->
  Py.truthy h = true ->
  keyboard_add_hotkey env h = Some ValueError ->
  listen_with_keyboard env server (pre ++ a :: post) w =
    (Exc (ConfigError ("Failed to register hotkey '" ++ py_str env h ++ "': "
                         ++ exc_str env ValueError)),
     emit_all (flat_map (keyboard_events env) pre ++ [EAddHotkey h a]) w).
Proof.
  intros Hk Hv Ha Hh Ht Hr.
  unfold listen_with_keyboard. rewrite Hk. cbn [negb].
  unfold bind at 1.
  rewrite (keyboard_register_prefix env server pre (a :: post) w Hv Ha).
  cbn [keyboard_register]. run. rewrite Hh. run. rewrite Ht. run.
  rewrite Hr. cbn [is_ValueError]. run. unfold emit_all.
  cbn [trace pid_file log_file]. rewrite <- !app_assoc. reflexivity.
Qed.

Lemma listen_with_keyboard_refused_witness :
  listen_with_keyboard refusing_env sample_server
    ([VDict unbound_entry] ++ sample_action :: [second_action]) empty_world =
    (Exc (ConfigError ("Failed to register hotkey '"
                         ++ py_str refusing_env (VStr "ctrl+alt+l") ++ "': "
                         ++ exc_str refusing_env ValueError)),
     emit_all (flat_map (keyboard_events refusing_env) [VDict unbound_entry]
                 ++ [EAddHotkey (VStr "ctrl+alt+l") sample_action]) empty_world).
Proof.
  exact (listen_with_keyboard_refused refusing_env sample_server
           [VDict unbound_entry] [second_action] sample_action
           (VStr "ctrl+alt+l") empty_world
           eq_refl eq_refl eq_refl eq_refl eq_refl eq_refl).
Defined.

Lemma pynput_register_prefix (env : Env) (server : value)
    (pre rest : list value) (w : World) :
  forallb valid_entry pre = true ->
  forallb (pynput_accepts env) pre = true ->
  pynput_register env server (pre ++ rest) w =
    pynput_register env server rest
      (emit_all (flat_map (pynput_events env) pre) w).
Proof.
  revert w. induction pre as [| a r IH]; intros w Hv Ha.
  - cbn [app flat_map]. now rewrite emit_all_nil.
  - cbn [forallb] in Hv, Ha. apply andb_true_iff in Hv, Ha.
    destruct Hv as [Hv Hvr], Ha as [Ha Har].
    destruct (valid_entry_dict a Hv) as (d & n & m & e & -> & Hn & _).
    cbn [app pynput_register flat_map].
    unfold pynput_events at 1. unfold pynput_accepts in Ha.
    unfold field. cbn [Py.get Py.getitem] in *. rewrite Hn.
    destruct (Py.lookup "hotkey" d) as [h |]; run.
    + destruct (Py.truthy h); cbn [negb orb] in *; run.
      * destruct (_to_pynput_combo h) as [combo | x]; [| discriminate].
        destruct (HotKey_parse env combo); [discriminate |]. run.
        rewrite (IH _ Hvr Har). unfold emit_all. cbn [trace pid_file log_file app].
        rewrite <- !app_assoc. reflexivity.
      * rewrite (IH _ Hvr Har). reflexivity.
    + cbn [Py.truthy negb]. run. rewrite (IH _ Hvr Har). reflexivity.
Qed.

(** X19. With the [pynput] backend, when every hotkey translates and the
    library parses every translation, the shortcuts with a hotkey are
    registered in the order of the file under their translated
    combination, each followed by one printed line that shows the hotkey
    as the configuration has it; then the listening line is printed and
    the listener runs, and the function ends as the listener ends. *)
Theorem listen_with_pynput_registers (env : Env) (server : value)
    (l : list value) (w : World) :
  pynput_keyboard env = true ->
  forallb valid_entry l = true ->
  forallb (pynput_accepts env) l = true ->
  listen_with_pynput env server l w =
    (ended (Listener_join env),
     emit_all (flat_map (pynput_events env) l
                 ++ [EPrint "Listening for hotkeys via pynput (Ctrl+C to exit)...";
                     EListen]) w).
Proof.
  intros Hk Hv Ha.
  unfold listen_with_pynput. rewrite Hk. cbn [negb].
  unfold bind at 1.
  pose proof (pynput_register_prefix env server l [] w Hv Ha) as H.
  rewrite app_nil_r in H. rewrite H. cbn [pynput_register].
  unfold emit_all, ended. run.
  destruct (Listener_join env); run; rewrite <- !app_assoc; reflexivity.
Qed.

Lemma listen_with_pynput_registers_witness :
  listen_with_pynput quiet_env sample_server
    [VDict unbound_entry; sample_action; second_action] empty_world =
    (ended (Listener_join quiet_env),
     emit_all (flat_map (pynput_events quiet_env)
                 [VDict unbound_entry; sample_action; second_action]
                 ++ [EPrint "Listening for hotkeys via pynput (Ctrl+C to exit)...";
                     EListen]) empty_world).
Proof.
  exact (listen_with_pynput_registers quiet_env sample_server
           [VDict unbound_entry; sample_action; second_action] empty_world
           eq_refl eq_refl eq_refl).
Defined.

(** X20. With the [pynput] backend, the first hotkey that does not
    translate ends the registration with the exception of the
    translation: a [ConfigError] for a string without a key in it, an
    [AttributeError], which [main] does not catch, for a hotkey that is
    not a string. The shortcuts before it stay registered and the
    listener never starts. *)
Theorem listen_with_pynput_untranslatable (env : Env) (server : value)
    (pre post : list value) (a h : value) (e : exn) (w : World) :
  pynput_keyboard env = true ->
  forallb valid_entry pre = true ->
  forallb (pynput_accepts env) pre = true ->
  Py.get a "hotkey" VNone = Val h ->
  Py.truthy h = true ->
  _to_pynput_combo h = Exc e ->
  listen_with_pynput env server (pre ++ a :: post) w =
    (Exc e, emit_all (flat_map (pynput_events env) pre) w).
Proof.
  intros Hk Hv Ha Hh Ht He.
  unfold listen_with_pynput. rewrite Hk. cbn [negb].
  unfold bind at 1.
  rewrite (pynput_register_prefix env server pre (a :: post) w Hv Ha).
  cbn [pynput_register]. run. rewrite Hh. run. rewrite Ht. run.
  rewrite He. reflexivity.
Qed.

Lemma listen_with_pynput_untranslatable_witness :
  listen_with_pynput quiet_env sample_server
    ([sample_action] ++ blank_hotkey_action :: [second_action]) empty_world =
    (Exc (ConfigError "Invalid hotkey ' + '"),
     emit_all (flat_map (pynput_events quiet_env) [sample_action]) empty_world).
Proof.
  exact (listen_with_pynput_untranslatable quiet_env sample_server
           [sample_action] [second_action] blank_hotkey_action (VStr " + ")
           (ConfigError "Invalid hotkey ' + '") empty_world
           eq_refl eq_refl eq_refl eq_refl eq_refl eq_refl).
Defined.

(** X21. With the [pynput] backend, the first translated combination the
    library does not parse ([ValueError]) ends the registration with a
    [ConfigError] that names the hotkey as the configuration has it; the
    shortcuts before it stay registered and the listener never starts. *)
Theorem listen_with_pynput_unparsed (env : Env) (server : value)
    (pre post : list value) (a h : value) (combo : string) (w : World) :
  pynput_keyboard env = true ->
  forallb valid_entry pre = true ->
  forallb (pynput_accepts env) pre = true ->
  Py.get a "hotkey" VNone = Val h ->
  Py.truthy h = true ->
  _to_pynput_combo h = Val combo ->
  HotKey_parse env combo = Some ValueError ->
  listen_with_pynput env server (pre ++ a :: post) w =
    (Exc (ConfigError ("Failed to parse hotkey '" ++ py_str env h ++ "': "
                         ++ exc_str env ValueError)),
     emit_all (flat_map (pynput_events env) pre) w).
Proof.
  intros Hk Hv Ha Hh Ht Hc Hp.
  unfold listen_with_pynput. rewrite Hk. cbn [negb].
  unfold bind at 1.
  rewrite (pynput_register_prefix env server pre (a :: post) w Hv Ha).
  cbn [pynput_register]. run. rewrite Hh. run. rewrite Ht. run.
  rewrite Hc. run. rewrite Hp. cbn [is_ValueError]. reflexivity.
Qed.

Lemma listen_with_pynput_unparsed_witness :
  listen_with_pynput unparsing_env sample_server
    ([VDict unbound_entry] ++ second_action :: [sample_action]) empty_world =
    (Exc (ConfigError ("Failed to parse hotkey '"
                         ++ py_str unparsing_env (VStr "Ctrl + F5") ++ "': "
                         ++ exc_str unparsing_env ValueError)),
     emit_all (flat_map (pynput_events unparsing_env) [VDict unbound_entry])
       empty_world).
Proof.
  exact (listen_with_pynput_unparsed unparsing_env sample_server
           [VDict unbound_entry] [sample_action] second_action
           (VStr "Ctrl + F5") "<ctrl>+<f5>" empty_world
           eq_refl eq_refl eq_refl eq_refl eq_refl eq_refl eq_refl).
Defined.

(** *** Listening from the command line *)

(** [main] on a validated configuration when it goes on to the hotkeys. *)
Lemma main_listens (env : Env) (args : Namespace) (w : World)
    (cfg server : value) (l : list value) :
  args_stop args = false ->
  args_background args = false ->
  load_and_validate env (args_config args) = Val cfg ->
  Py.getitem cfg "server" = Val server ->
  Py.getitem cfg "shortcuts" = Val (VList l) ->
  forallb valid_entry l = true ->
  listens args = true ->
  main env args w =
    try_except
      (register_hotkeys env server l (args_backend args) ;; ret 0)
      is_ConfigError
      (fun exc => print (exc_str env exc) ;; ret 1)
      (emit_all (listing_events env (args_list args) l) w).
Proof.
  intros Hs Hb Hload Hserver Hl Hvalid Hlis.
  unfold listens in Hlis. apply andb_true_iff in Hlis.
  destruct Hlis as [Hg Hor]. apply negb_true_iff in Hg.
  pose proof (listing_run env (args_list args) l w Hvalid) as Hrun.
  unfold main. rewrite Hs, Hb, Hload, Hg. cbn [negb].
  rewrite andb_true_r, Hor.
  unfold bind at 1. unfold lift at 1. rewrite Hserver.
  unfold bind at 1. unfold lift at 1. rewrite Hl.
  unfold bind at 1. unfold lift at 1. cbn [as_list].
  unfold bind at 1. rewrite Hrun. reflexivity.
Qed.

(** X22. Without a name to trigger, and with [--listen] or without
    [--list] (so also without any flag at all), [main] on a valid
    configuration with the [keyboard] backend prints the listing if it is
    asked for, registers the hotkeys in the order of the file, prints the
    listening line and blocks; it returns 0 when the wait returns and lets
    the interruption escape otherwise. *)
Theorem main_keyboard_listening (env : Env) (args : Namespace) (w : World)
    (cfg : value) (l : list value) :
  args_stop args = false ->
  args_background args = false ->
  load_and_validate env (args_config args) = Val cfg ->
  listens args = true ->
  args_backend args = "keyboard" ->
  keyboard env = true ->
  Py.getitem cfg "shortcuts" = Val (VList l) ->
  forallb (keyboard_accepts env) l = true ->
  (forall msg, keyboard_wait env <> Some (ConfigError msg)) ->
  main env args w =
    (match keyboard_wait env with
     | None => Val 0
     | Some e => Exc e
     end,
     emit_all (listing_events env (args_list args) l
                 ++ flat_map (keyboard_events env) l
                 ++ [EPrint "Listening for hotkeys (Ctrl+C to exit)..."; EWait]) w).
Proof.
  intros Hs Hb Hload Hlis Hbk Hk Hl Ha Hwait.
  destruct (load_and_validate_ok env _ cfg Hload) as (server & l' & Hserver & Hl' & Hvalid).
  rewrite Hl in Hl'. inversion Hl'; subst l'; clear Hl'.
  rewrite (main_listens env args w cfg server l Hs Hb Hload Hserver Hl Hvalid Hlis).
  rewrite Hbk. unfold register_hotkeys. cbn [String.eqb Ascii.eqb Bool.eqb].
  unfold try_except. unfold bind at 1.
  unfold listen_with_keyboard. rewrite Hk. cbn [negb].
  unfold bind at 1.
  rewrite (keyboard_register_run env server l _ Hvalid Ha). run.
  destruct (keyboard_wait env) as [e |] eqn:Hw; run.
  - destruct e; try (specialize (Hwait msg); congruence);
      cbn [is_ConfigError]; unfold emit_all; cbn [trace pid_file log_file];
      rewrite <- !app_assoc; reflexivity.
  - unfold emit_all. cbn [trace pid_file log_file].
    rewrite <- !app_assoc. reflexivity.
Qed.

Lemma quiet_wait (msg : string) : keyboard_wait quiet_env <> Some (ConfigError msg).
Proof. discriminate. Defined.

Lemma main_keyboard_listening_witness :
  main quiet_env (sample_args false None) empty_world =
    (match keyboard_wait quiet_env with
     | None => Val 0
     | Some e => Exc e
     end,
     emit_all (listing_events quiet_env (args_list (sample_args false None))
                 [sample_action]
                 ++ flat_map (keyboard_events quiet_env) [sample_action]
                 ++ [EPrint "Listening for hotkeys (Ctrl+C to exit)..."; EWait])
       empty_world).
Proof.
  exact (main_keyboard_listening quiet_env (sample_args false None) empty_world
           sample_config [sample_action]
           eq_refl eq_refl eq_refl eq_refl eq_refl eq_refl eq_refl eq_refl
           quiet_wait).
Defined.



(** X24. When the [keyboard] library refuses a hotkey, [main] prints
    [Failed to register hotkey ...] and returns 1: the process does not
    stay to listen with the hotkeys registered so far. *)
Theorem main_hotkey_refused (env : Env) (args : Namespace) (w : World)
    (cfg : value) (pre post : list value) (a h : value) :
  args_stop args = false ->
  args_background args = false ->
  load_and_validate env (args_config args) = Val cfg ->
  listens args = true ->
  args_backend args = "keyboard" ->
  keyboard env = true ->
  Py.getitem cfg "shortcuts" = Val (VList (pre ++ a :: post)) ->
  forallb (keyboard_accepts env) pre = true ->
  Py.get a "hotkey" VNone = Val h ->
  Py.truthy h = true ->
  keyboard_add_hotkey env h = Some ValueError ->
  main env args w =
    (Val 1,
     emit_all (listing_events env (args_list args) (pre ++ a :: post)
                 ++ flat_map (keyboard_events env) pre
                 ++ [EAddHotkey h a;
                     EPrint ("Failed to register hotkey '" ++ py_str env h
                               ++ "': " ++ exc_str env ValueError)]) w).
Proof.
  intros Hs Hb Hload Hlis Hbk Hk Hl Ha Hh Ht Hr.
  destruct (load_and_validate_ok env _ cfg Hload) as (server & l & Hserver & Hl' & Hvalid).
  rewrite Hl in Hl'. inversion Hl'; subst l; clear Hl'.
  assert (Hvpre : forallb valid_entry pre = true).
  { rewrite forallb_app in Hvalid. apply andb_true_iff in Hvalid. tauto. }
  rewrite (main_listens env args w cfg server _ Hs Hb Hload Hserver Hl Hvalid Hlis).
  rewrite Hbk. unfold register_hotkeys. cbn [String.eqb Ascii.eqb Bool.eqb].
  unfold try_except. unfold bind at 1.
  unfold listen_with_keyboard. rewrite Hk. cbn [negb].
  unfold bind at 1.
  rewrite (keyboard_register_prefix env server pre (a :: post) _ Hvpre Ha).
  cbn [keyboard_register]. run. rewrite Hh. run. rewrite Ht. run.
  rewrite Hr. cbn [is_ValueError]. run. cbn [is_ConfigError exc_str]. run.
  unfold emit_all. cbn [trace pid_file log_file]. rewrite <- !app_assoc.
  reflexivity.
Qed.

Lemma main_hotkey_refused_witness :
  main refusing_env (sample_args false None) empty_world =
    (Val 1,
     emit_all (listing_events refusing_env
                 (args_list (sample_args false None)) ([] ++ sample_action :: [])
                 ++ flat_map (keyboard_events refusing_env) []
                 ++ [EAddHotkey (VStr "ctrl+alt+l") sample_action;
                     EPrint ("Failed to register hotkey '"
                               ++ py_str refusing_env (VStr "ctrl+alt+l")
                               ++ "': " ++ exc_str refusing_env ValueError)])
       empty_world).
Proof.
  exact (main_hotkey_refused refusing_env (sample_args false None) empty_world
           sample_config [] [] sample_action (VStr "ctrl+alt+l")
           eq_refl eq_refl eq_refl eq_refl eq_refl eq_refl eq_refl eq_refl
           eq_refl eq_refl eq_refl).
Defined.

(** *** The translated combination *)

Lemma mem_cons (c a : ascii) (s : string) :
  PyStr.mem c (String a s) = Ascii.eqb c a || PyStr.mem c s.
Proof. reflexivity. Qed.

Lemma mem_append (c : ascii) (s t : string) :
  PyStr.mem c (s ++ t) = PyStr.mem c s || PyStr.mem c t.
Proof.
  induction s as [| a r IH]; [reflexivity |].
  cbn [append]. rewrite !mem_cons, IH. apply orb_assoc.
Qed.

(** A piece without the separator in front of the separator is cut off
    as it is. *)
Lemma split_piece (sep : ascii) (p rest : string) :
  PyStr.mem sep p = false ->
  PyStr.split sep (p ++ String sep rest) = p :: PyStr.split sep rest.
Proof.
  induction p as [| a r IH]; intros H.
  - cbn [append PyStr.split]. now rewrite Ascii.eqb_refl.
  - rewrite mem_cons in H. apply orb_false_iff in H. destruct H as [Ha Hr].
    cbn [append PyStr.split]. rewrite Ascii.eqb_sym, Ha, (IH Hr). reflexivity.
Qed.

Lemma split_whole (sep : ascii) (p : string) :
  PyStr.mem sep p = false -> PyStr.split sep p = [p].
Proof.
  induction p as [| a r IH]; intros H; [reflexivity |].
  rewrite mem_cons in H. apply orb_false_iff in H. destruct H as [Ha Hr].
  cbn [PyStr.split]. rewrite Ascii.eqb_sym, Ha, (IH Hr). reflexivity.
Qed.

(** Joining pieces that are free of the separator and splitting again
    gives the pieces. *)
Lemma split_join (sep : ascii) (l : list string) :
  l <> [] ->
  forallb (fun p => negb (PyStr.mem sep p)) l = true ->
  PyStr.split sep (PyStr.join (String sep "") l) = l.
Proof.
  induction l as [| p r IH]; [congruence |]. intros _ H.
  cbn [forallb] in H. apply andb_true_iff in H. destruct H as [Hp Hr].
  apply negb_true_iff in Hp.
  destruct r as [| p' r'].
  - cbn [PyStr.join]. now apply split_whole.
  - change (PyStr.join (String sep "") (p :: p' :: r'))
      with (p ++ String sep (PyStr.join (String sep "") (p' :: r'))).
    rewrite (split_piece sep p _ Hp). f_equal. apply IH; [discriminate | exact Hr].
Qed.

Lemma split_pieces_free (sep : ascii) (s : string) :
  forallb (fun p => negb (PyStr.mem sep p)) (PyStr.split sep s) = true.
Proof.
  induction s as [| a r IH]; [reflexivity |]. cbn [PyStr.split].
  destruct (Ascii.eqb a sep) eqn:E; [exact IH |].
  destruct (PyStr.split sep r) as [| h t]; cbn [forallb] in *.
  - rewrite mem_cons, Ascii.eqb_sym, E. reflexivity.
  - rewrite mem_cons, Ascii.eqb_sym, E. exact IH.
Qed.

Lemma mem_lstrip_by (c : ascii) (p : ascii -> bool) (s : string) :
  PyStr.mem c s = false -> PyStr.mem c (PyStr.lstrip_by p s) = false.
Proof.
  induction s as [| a r IH]; [auto |]. intros H. cbn [PyStr.lstrip_by].
  destruct (p a); [| exact H].
  rewrite mem_cons in H. apply orb_false_iff in H. apply IH. tauto.
Qed.

Lemma mem_rstrip_by (c : ascii) (p : ascii -> bool) (s : string) :
  PyStr.mem c s = false -> PyStr.mem c (PyStr.rstrip_by p s) = false.
Proof.
  induction s as [| a r IH]; [auto |]. intros H.
  rewrite mem_cons in H. apply orb_false_iff in H. destruct H as [Ha Hr].
  cbn [PyStr.rstrip_by]. specialize (IH Hr).
  destruct (PyStr.rstrip_by p r) as [| a' r'].
  - destruct (p a); [reflexivity |]. rewrite mem_cons, Ha. reflexivity.
  - rewrite mem_cons, Ha. exact IH.
Qed.

Lemma plus_lower_char (c : ascii) :
  Ascii.eqb "+" (PyStr.lower_char c) = Ascii.eqb "+" c.
Proof. destruct c as [[] [] [] [] [] [] [] []]; reflexivity. Qed.

Lemma mem_plus_lower (s : string) :
  PyStr.mem "+" (PyStr.lower s) = PyStr.mem "+" s.
Proof.
  unfold PyStr.lower. induction s as [| a r IH]; [reflexivity |].
  cbn [PyStr.map]. rewrite !mem_cons, IH, plus_lower_char. reflexivity.
Qed.

Lemma mem_plus_wrap_token (t : string) :
  PyStr.mem "+" t = false -> PyStr.mem "+" (wrap_token t) = false.
Proof.
  intros H. unfold wrap_token, bracket.
  destruct (is_modifier t || Nat.ltb 1 (String.length t)); [| exact H].
  rewrite !mem_append, H. reflexivity.
Qed.

Lemma tokens_free (s : string) :
  forallb (fun p => negb (PyStr.mem "+" p))
    (List.map wrap_token (hotkey_tokens s)) = true.
Proof.
  unfold hotkey_tokens. rewrite forallb_forall. intros t Ht.
  apply in_map_iff in Ht. destruct Ht as [t0 [<- Ht0]].
  apply filter_In in Ht0. destruct Ht0 as [Ht0 _].
  apply in_map_iff in Ht0. destruct Ht0 as [raw [<- Hraw]].
  pose proof (split_pieces_free "+" s) as Hfree.
  rewrite forallb_forall in Hfree. specialize (Hfree raw Hraw).
  apply negb_true_iff in Hfree. apply negb_true_iff.
  apply mem_plus_wrap_token. rewrite mem_plus_lower.
  unfold PyStr.strip. apply mem_rstrip_by, mem_lstrip_by. exact Hfree.
Qed.

(** X25. [_to_pynput_combo] raises [ConfigError] exactly for the strings
    without a key in them (empty, blank, only [+] signs); for every other
    string it gives a combination that splits on [+] into the translated
    tokens again, one piece for each token of the hotkey, in their
    order. *)
Theorem to_pynput_combo_splits_back (s : string) :
  match hotkey_tokens s with
  | [] => exists msg, _to_pynput_combo (VStr s) = Exc (ConfigError msg)
  | _ :: _ =>
      exists c,
        _to_pynput_combo (VStr s) = Val c /\
        PyStr.split "+" c = List.map wrap_token (hotkey_tokens s)
  end.
Proof.
  pose proof (tokens_free s) as Hfree.
  unfold _to_pynput_combo. cbn [Py.truthy]. rewrite combo_parts_tokens.
  fold (hotkey_tokens s).
  destruct (hotkey_tokens s) as [| t ts] eqn:E.
  - destruct (PyStr.is_empty s); cbn [negb List.map]; eauto.
  - assert (Hs : PyStr.is_empty s = false).
    { destruct s; [discriminate E | reflexivity]. }
    rewrite Hs. cbn [negb List.map] in *.
    eexists. split; [reflexivity |].
    apply (split_join "+" (wrap_token t :: List.map wrap_token ts));
      [discriminate | exact Hfree].
Qed.









